(** * Matching core of the adblocker: network-filter matching and cosmetic
    filter parsing, embedded from [matching/network] and
    [parsing/cosmetic-filter]. *)

From Stdlib Require Import ZArith Ascii String Bool Lia.
From stdpp Require Import base list gmap strings.

Local Open Scope string_scope.
Local Open Scope Z_scope.

(** ** JavaScript string primitives

    Strings are sequences of characters; indices are JavaScript numbers,
    modelled in [Z] so that [-1] (absent) and out-of-range reads behave as
    in the source. *)
Module JS.

(** [s.length] *)
Definition len (s : string) : Z := Z.of_nat (String.length s).

(** [s[i]]: [None] stands for [undefined]. *)
Definition charAt (s : string) (i : Z) : option ascii :=
  if i <? 0 then None else String.get (Z.to_nat i) s.

(** [s[i] === c] *)
Definition charIs (s : string) (i : Z) (c : ascii) : bool :=
  match charAt s i with
  | Some d => Ascii.eqb d c
  | None => false
  end.

(** [s.indexOf(needle)]: leftmost occurrence, [-1] when there is none. *)
Definition indexOf (s needle : string) : Z :=
  match String.index 0 needle s with
  | Some n => Z.of_nat n
  | None => -1
  end.

(** Clamping of an index argument to [0 .. s.length]. *)
Definition clamp (s : string) (i : Z) : nat :=
  Z.to_nat (Z.max 0 (Z.min i (len s))).

(** [s.substring(a, b)]: both ends clamped, swapped when [a > b]. *)
Definition substring (s : string) (a b : Z) : string :=
  let a' := clamp s a in
  let b' := clamp s b in
  String.substring (Nat.min a' b') (Nat.max a' b' - Nat.min a' b') s.

(** [s.substring(a)] *)
Definition substringFrom (s : string) (a : Z) : string :=
  substring s a (len s).

(** [s.substr(start)]: a negative start counts from the end. *)
Definition substr (s : string) (start : Z) : string :=
  let st := if start <? 0 then Z.max (len s + start) 0 else Z.min start (len s) in
  String.substring (Z.to_nat st) (String.length s - Z.to_nat st) s.

(** [s.slice(a, b)] for the non-negative indices the source passes. *)
Definition slice (s : string) (a b : nat) : string :=
  String.substring a (b - a) s.

(** [s.endsWith(suffix)] *)
Definition endsWith (s suffix : string) : bool :=
  (String.length suffix <=? String.length s)%nat &&
  String.eqb (String.substring (String.length s - String.length suffix)
                               (String.length suffix) s) suffix.

(** [s.charCodeAt(i)] for [i] in range; [None] stands for [NaN]. *)
Definition charCodeAt (s : string) (i : nat) : option nat :=
  option_map nat_of_ascii (String.get i s).

End JS.

(** ** Utilities imported from [../utils] *)

(** Modelled from the spec: [fastStartsWith] is declared in [utils.d.ts] only;
    the spec describes it as an optimized [startsWith] prefix test. *)
Definition fastStartsWith (haystack needle : string) : bool :=
  String.prefix needle haystack.

(** Modelled from the spec: [fastStartsWithFrom] is declared in [utils.d.ts]
    only; the spec describes it as [startsWith] from an offset. *)
Definition fastStartsWithFrom (haystack needle : string) (start : Z) : bool :=
  (JS.len needle <=? JS.len haystack - start) &&
  String.prefix needle (JS.substringFrom haystack start).

(** Modelled from the spec: [getBit] and [setBit] are declared in
    [utils.d.ts] only; the spec describes the flags as a bitmask with one bit
    per flag. *)
Definition getBit (n mask : Z) : bool := negb (Z.land n mask =? 0).
Definition setBit (n mask : Z) : Z := Z.lor n mask.

(** ** Hostname anchoring: [isAnchoredByHostname] *)

Definition dot : ascii := "."%char.

Definition isAnchoredByHostname (filterHostname hostname : string) : bool :=
  if JS.len filterHostname =? 0 then true
  else if JS.len filterHostname >? JS.len hostname then false
  else
    let matchIndex := JS.indexOf hostname filterHostname in
    if matchIndex =? -1 then false
    else
      ((matchIndex =? 0) &&
       ((JS.len hostname =? JS.len filterHostname) ||
        JS.charIs filterHostname (JS.len filterHostname - 1) dot ||
        JS.charIs hostname (JS.len filterHostname) dot))
      ||
      ((JS.charIs hostname (matchIndex - 1) dot || JS.charIs filterHostname 0 dot) &&
       ((JS.len hostname - matchIndex =? JS.len filterHostname) ||
        JS.charIs filterHostname (JS.len filterHostname - 1) dot ||
        JS.charIs hostname (matchIndex + JS.len filterHostname) dot)).

(** [getUrlAfterHostname]: [url] from the end of the leftmost occurrence of
    [hostname] on; [indexOf] is [-1] when there is no occurrence. *)
Definition getUrlAfterHostname (url hostname : string) : string :=
  JS.substringFrom url (JS.indexOf url hostname + JS.len hostname).

(** ** External capabilities

    [createFuzzySignature], [tokenizeCSS] and [fastHash] are implemented in
    [../utils]; only their declarations are available, so they are taken as
    an interface. *)
Class Utils := {
  createFuzzySignature : string -> list N;
  tokenizeCSS : string -> list Z;
  fastHash : string -> Z;
}.

(** ** Requests and network filters *)

(** [IRequest]: [fuzzySignature] is the lazily installed cache,
    [None] standing for [undefined]. *)
Record IRequest := mkRequest {
  url : string;
  hostname : string;
  sourceHostname : string;
  sourceGD : string;
  hostGD : string;
  cpt : Z;
  fuzzySignature : option (list N);
}.

(** [NetworkFilter] is built by the network-filter parser; the matcher only
    calls its accessors, one field per accessor here. *)
Record NetworkFilter := mkNetworkFilter {
  isHostnameAnchor : bool;
  isRegex : bool;
  isLeftAnchor : bool;
  isRightAnchor : bool;
  isFuzzy : bool;
  firstParty : bool;
  thirdParty : bool;
  isCptAllowed : Z -> bool;
  hasOptDomains : bool;
  getOptDomains : gset string;
  hasOptNotDomains : bool;
  getOptNotDomains : gset string;
  getFilter : string;
  getRegex : string -> bool;
  getHostname : string;
  getFuzzySignature : list N;
}.

(** [{...request, url: u}] *)
Definition withUrl (request : IRequest) (u : string) : IRequest :=
  {| url := u; hostname := hostname request;
     sourceHostname := sourceHostname request; sourceGD := sourceGD request;
     hostGD := hostGD request; cpt := cpt request;
     fuzzySignature := fuzzySignature request |}.

(** [request.fuzzySignature = sig] *)
Definition setFuzzySignature (request : IRequest) (sig : list N) : IRequest :=
  {| url := url request; hostname := hostname request;
     sourceHostname := sourceHostname request; sourceGD := sourceGD request;
     hostGD := hostGD request; cpt := cpt request;
     fuzzySignature := Some sig |}.

(** ** Fuzzy matching *)

(** [arr.indexOf(c, fromIndex)] on a typed array. *)
Definition indexOfFrom (arr : list N) (c : N) (fromIndex : Z) : Z :=
  let k := if fromIndex <? 0
           then Z.to_nat (Z.max 0 (Z.of_nat (length arr) + fromIndex))
           else Z.to_nat fromIndex in
  match list_find (fun x => x = c) (drop k arr) with
  | Some (j, _) => Z.of_nat (k + j)
  | None => -1
  end.

(** The [for] loop of [checkPatternFuzzyFilter], by recursion on the part of
    [signature] still to visit. *)
Fixpoint fuzzyLoop (signature requestSignature : list N) (lastIndex : Z) : bool :=
  match signature with
  | [] => true
  | c :: rest =>
      let j := indexOfFrom requestSignature c lastIndex in
      if j =? -1 then false
      else fuzzyLoop rest requestSignature (j + 1)
  end.

(** The comparison of the two signatures once the request signature is known. *)
Definition fuzzyMatch (signature requestSignature : list N) : bool :=
  if Z.of_nat (length signature) >? Z.of_nat (length requestSignature) then false
  else fuzzyLoop signature requestSignature 0.

Section Network.
Context {U : Utils}.

(** The lazy install of [request.fuzzySignature]. *)
Definition ensureFuzzySignature (request : IRequest) : IRequest :=
  match fuzzySignature request with
  | None => setFuzzySignature request (createFuzzySignature (url request))
  | Some _ => request
  end.

(** The signature read back after the install. *)
Definition requestSignatureOf (request : IRequest) : list N :=
  match fuzzySignature (ensureFuzzySignature request) with
  | Some sig => sig
  | None => []
  end.

(** Matching functions return the boolean together with the request as the
    call leaves it. *)
Definition checkPatternFuzzyFilter (filter : NetworkFilter) (request : IRequest)
  : bool * IRequest :=
  let signature := getFuzzySignature filter in
  let request := ensureFuzzySignature request in
  let requestSignature :=
    match fuzzySignature request with Some sig => sig | None => [] end in
  (fuzzyMatch signature requestSignature, request).

Definition checkPatternPlainFilter (filter : NetworkFilter) (request : IRequest) : bool :=
  negb (JS.indexOf (url request) (getFilter filter) =? -1).

Definition checkPatternRightAnchorFilter (filter : NetworkFilter) (request : IRequest) : bool :=
  JS.endsWith (url request) (getFilter filter).

Definition checkPatternLeftAnchorFilter (filter : NetworkFilter) (request : IRequest) : bool :=
  fastStartsWith (url request) (getFilter filter).

Definition checkPatternLeftRightAnchorFilter (filter : NetworkFilter) (request : IRequest) : bool :=
  String.eqb (url request) (getFilter filter).

Definition checkPatternRegexFilter (filter : NetworkFilter) (request : IRequest) : bool :=
  getRegex filter (url request).

Definition checkPatternHostnameAnchorRegexFilter
    (filter : NetworkFilter) (request : IRequest) : bool :=
  if isAnchoredByHostname (getHostname filter) (hostname request) then
    let urlAfterHostname := getUrlAfterHostname (url request) (getHostname filter) in
    checkPatternRegexFilter filter (withUrl request urlAfterHostname)
  else false.

Definition checkPatternHostnameRightAnchorFilter
    (filter : NetworkFilter) (request : IRequest) : bool :=
  if isAnchoredByHostname (getHostname filter) (hostname request) then
    let urlAfterHostname := getUrlAfterHostname (url request) (getHostname filter) in
    String.eqb (getFilter filter) urlAfterHostname
  else false.

Definition checkPatternHostnameAnchorFilter
    (filter : NetworkFilter) (request : IRequest) : bool :=
  if isAnchoredByHostname (getHostname filter) (hostname request) then
    let urlAfterHostname := getUrlAfterHostname (url request) (getHostname filter) in
    fastStartsWith urlAfterHostname (getFilter filter)
  else false.

Definition checkPatternHostnameAnchorFuzzyFilter
    (filter : NetworkFilter) (request : IRequest) : bool * IRequest :=
  if isAnchoredByHostname (getHostname filter) (hostname request) then
    checkPatternFuzzyFilter filter request
  else (false, request).

Definition checkPattern (filter : NetworkFilter) (request : IRequest) : bool * IRequest :=
  if isHostnameAnchor filter then
    if isRegex filter then
      (checkPatternHostnameAnchorRegexFilter filter request, request)
    else if isRightAnchor filter then
      (checkPatternHostnameRightAnchorFilter filter request, request)
    else if isFuzzy filter then
      checkPatternHostnameAnchorFuzzyFilter filter request
    else (checkPatternHostnameAnchorFilter filter request, request)
  else if isRegex filter then
    (checkPatternRegexFilter filter request, request)
  else if isLeftAnchor filter && isRightAnchor filter then
    (checkPatternLeftRightAnchorFilter filter request, request)
  else if isLeftAnchor filter then
    (checkPatternLeftAnchorFilter filter request, request)
  else if isRightAnchor filter then
    (checkPatternRightAnchorFilter filter request, request)
  else if isFuzzy filter then
    checkPatternFuzzyFilter filter request
  else (checkPatternPlainFilter filter request, request).

Definition checkOptions (filter : NetworkFilter) (request : IRequest) : bool :=
  if negb (isCptAllowed filter (cpt request)) then false
  else
    let sHost := sourceHostname request in
    let sHostGD := sourceGD request in
    let hostGD := hostGD request in
    let isFirstParty := String.eqb sHostGD hostGD in
    if negb (firstParty filter) && isFirstParty then false
    else if negb (thirdParty filter) && negb isFirstParty then false
    else if hasOptDomains filter &&
            ((0 <? Z.of_nat (size (getOptDomains filter))) &&
             negb (bool_decide (sHostGD ∈ getOptDomains filter) ||
                   bool_decide (sHost ∈ getOptDomains filter)))
    then false
    else if hasOptNotDomains filter &&
            ((0 <? Z.of_nat (size (getOptNotDomains filter))) &&
             (bool_decide (sHostGD ∈ getOptNotDomains filter) ||
              bool_decide (sHost ∈ getOptNotDomains filter)))
    then false
    else true.

(** [checkOptions(filter, request) && checkPattern(filter, request)]: the
    right operand only runs when the left one is true. *)
Definition matchNetworkFilter (filter : NetworkFilter) (request : IRequest)
  : bool * IRequest :=
  if checkOptions filter request then checkPattern filter request
  else (false, request).

End Network.

(** ** Cosmetic filters *)

(** [COSMETICS_MASK] *)
Module COSMETICS_MASK.
Definition unhide : Z := Z.shiftl 1 0.
Definition scriptInject : Z := Z.shiftl 1 1.
Definition scriptBlock : Z := Z.shiftl 1 2.
End COSMETICS_MASK.

(** [CosmeticFilter]: [hostnamesArray] and [rawLine] are [null] ([None])
    after construction. *)
Record CosmeticFilter := mkCosmeticFilter {
  id : Z;
  mask : Z;
  selector : string;
  hostnames : string;
  rawLine : option string;
  hostnamesArray : option (list string);
}.

(** The constructor. *)
Definition newCosmeticFilter (mask : Z) (selector hostnames : string) (id : Z)
  : CosmeticFilter :=
  {| id := id; mask := mask; selector := selector; hostnames := hostnames;
     rawLine := None; hostnamesArray := None |}.

Definition isUnhide (f : CosmeticFilter) : bool :=
  getBit (mask f) COSMETICS_MASK.unhide.
Definition isScriptInject (f : CosmeticFilter) : bool :=
  getBit (mask f) COSMETICS_MASK.scriptInject.
Definition isScriptBlock (f : CosmeticFilter) : bool :=
  getBit (mask f) COSMETICS_MASK.scriptBlock.

(** [!!this.hostnames]: a string is truthy when it is not empty. *)
Definition hasHostnames (f : CosmeticFilter) : bool :=
  negb (JS.len (hostnames f) =? 0).

Definition getSelector (f : CosmeticFilter) : string := selector f.

Definition toString (f : CosmeticFilter) : string :=
  let filter := "" in
  let filter := if hasHostnames f then String.append filter (hostnames f) else filter in
  let filter := if isUnhide f then String.append filter "#@#"
                else String.append filter "##" in
  if isScriptInject f then
    String.append (String.append (String.append filter "script:inject(") (selector f)) ")"
  else if isScriptBlock f then
    String.append (String.append (String.append filter "script:contains(") (selector f)) ")"
  else String.append filter (selector f).

(** [s.split(sep)] for a one-character separator. *)
Fixpoint split (sep : ascii) (s : string) : list string :=
  match s with
  | EmptyString => [EmptyString]
  | String c s' =>
      if Ascii.eqb c sep then EmptyString :: split sep s'
      else match split sep s' with
           | w :: ws => String c w :: ws
           | [] => [String c EmptyString]
           end
  end.

(** [arr.sort(...)] with the comparator of [getHostnames]: longer hostnames
    first, equal lengths in their original order. *)
Fixpoint insertByLength (h : string) (sorted : list string) : list string :=
  match sorted with
  | [] => [h]
  | h' :: rest =>
      if JS.len h' >? JS.len h then h' :: insertByLength h rest
      else h :: h' :: rest
  end.

Definition sortByLength (hs : list string) : list string :=
  foldr insertByLength [] hs.

(** [getHostnames]: the array, and the filter with the cache installed. *)
Definition getHostnames (f : CosmeticFilter) : list string * CosmeticFilter :=
  match hostnamesArray f with
  | Some arr => (arr, f)
  | None =>
      let arr := if hasHostnames f then sortByLength (split ","%char (hostnames f))
                 else [] in
      (arr, {| id := id f; mask := mask f; selector := selector f;
               hostnames := hostnames f; rawLine := rawLine f;
               hostnamesArray := Some arr |})
  end.

(** *** Selector tokens *)

(** ['+'], ['>'] or ['~'] *)
Definition isCombinatorCode (code : option nat) : bool :=
  match code with
  | Some c => ((c =? 43) || (c =? 62) || (c =? 126))%nat
  | None => false
  end.

(** The backward loop of [getTokensSelector], [n] being [i + 1]: the index
    of the last combinator character, [0] when the loop runs out. *)
Fixpoint findSepIndex (sel : string) (n : nat) : nat :=
  match n with
  | O => O
  | S i => if isCombinatorCode (JS.charCodeAt sel i) then i
           else findSepIndex sel i
  end.

Definition lastCombinatorIndex (sel : string) : nat :=
  findSepIndex sel (String.length sel).

(** The variables of the forward loop. *)
Record Scan := mkScan {
  inside : Z;
  start : nat;
  tokens : list Z;
}.

Section Cosmetic.
Context {U : Utils}.

(** The body of the forward loop at index [i], [code] being the character
    code read there. *)
Definition scanCode (sel : string) (code i : nat) (st : Scan) : Scan :=
  if (code =? 91)%nat then
    {| inside := inside st + 1;
       start := start st;
       tokens := if (inside st =? 0) && (start st <? i)%nat
                 then tokens st ++ tokenizeCSS (JS.slice sel (start st) i)
                 else tokens st |}
  else if (code =? 93)%nat then
    {| inside := inside st - 1; start := (i + 1)%nat; tokens := tokens st |}
  else st.

(** One iteration of the forward loop at index [i]. *)
Definition scanStep (sel : string) (i : nat) (st : Scan) : Scan :=
  match JS.charCodeAt sel i with
  | Some code => scanCode sel code i st
  | None => st
  end.

(** [n] iterations of the forward loop from index [i]. *)
Fixpoint scanLoop (sel : string) (n i : nat) (st : Scan) : Scan :=
  match n with
  | O => st
  | S n' => scanLoop sel n' (S i) (scanStep sel i st)
  end.

(** The push after the forward loop. *)
Definition finalPush (sel : string) (st : Scan) : list Z :=
  if (inside st =? 0) && (start st <? String.length sel)%nat
  then tokens st ++ tokenizeCSS (JS.slice sel (start st) (String.length sel))
  else tokens st.

(** The forward loop from [sepIndex] and the final push. *)
Definition tokensFrom (sel : string) (sepIndex : nat) : list Z :=
  finalPush sel
    (scanLoop sel (String.length sel - sepIndex) sepIndex
       {| inside := 0; start := sepIndex; tokens := [] |}).

Definition getTokensSelector (f : CosmeticFilter) : list Z :=
  if isScriptInject f || isScriptBlock f then []
  else tokensFrom (selector f) (lastCombinatorIndex (selector f)).

Definition getTokens (f : CosmeticFilter) : list (list Z) :=
  [getTokensSelector f].

(** *** Parsing *)

(** The [script:] branch of [parseCosmeticFilter]. *)
Definition parseScript (mask : Z) (selector : string) : Z * string :=
  let scriptMethodIndex := JS.len "script:" in
  let scriptSelectorIndexStart := scriptMethodIndex in
  let scriptSelectorIndexEnd := JS.len selector - 1 in
  if fastStartsWithFrom selector "inject(" scriptMethodIndex then
    (setBit mask COSMETICS_MASK.scriptInject,
     JS.substring selector (scriptSelectorIndexStart + JS.len "inject(")
                  scriptSelectorIndexEnd)
  else if fastStartsWithFrom selector "contains(" scriptMethodIndex then
    let mask := setBit mask COSMETICS_MASK.scriptBlock in
    let scriptSelectorIndexStart := scriptSelectorIndexStart + JS.len "contains(" in
    if JS.charIs selector scriptSelectorIndexStart "/"%char &&
       JS.charIs selector (scriptSelectorIndexEnd - 1) "/"%char
    then (mask, JS.substring selector (scriptSelectorIndexStart + 1)
                             (scriptSelectorIndexEnd - 1))
    else (mask, JS.substring selector scriptSelectorIndexStart scriptSelectorIndexEnd)
  else (mask, JS.substring selector scriptSelectorIndexStart scriptSelectorIndexEnd).

(** The mask, selector and hostnames of a line when the rejection test is
    reached. *)
Definition parsedFields (line : string) : Z * string * string :=
  let mask := 0 in
  let sharpIndex := JS.indexOf line "#" in
  let afterSharpIndex := sharpIndex + 1 in
  let suffixStartIndex := afterSharpIndex + 1 in
  let unhide := JS.charIs line afterSharpIndex "@"%char in
  let mask := if unhide then setBit mask COSMETICS_MASK.unhide else mask in
  let suffixStartIndex := if unhide then suffixStartIndex + 1 else suffixStartIndex in
  let hostnames := if sharpIndex >? 0 then JS.substring line 0 sharpIndex else "" in
  let selector := JS.substr line suffixStartIndex in
  let '(mask, selector) :=
    if fastStartsWith selector "script:" then parseScript mask selector
    else (mask, selector) in
  (mask, selector, hostnames).

Definition parsedMask (line : string) : Z := fst (fst (parsedFields line)).
Definition parsedSelector (line : string) : string := snd (fst (parsedFields line)).
Definition parsedHostnames (line : string) : string := snd (parsedFields line).

(** [None] stands for the [null] result. *)
Definition parseCosmeticFilter (line : string) : option CosmeticFilter :=
  let '(mask, selector, hostnames) := parsedFields line in
  if (JS.len selector =? 0) ||
     JS.endsWith selector "}" ||
     negb (JS.indexOf selector "##" =? -1) ||
     (getBit mask COSMETICS_MASK.unhide && (JS.len hostnames =? 0))
  then None
  else
    let id := fastHash line in
    Some (newCosmeticFilter mask selector hostnames id).

(** *** The methods of a filter as operations on the object *)

Inductive Method :=
| IsCosmeticFilter | IsNetworkFilter | ToString | GetTokens | GetTokensSelector
| GetSelector | HasHostnames | GetHostnames | IsUnhide | IsScriptInject
| IsScriptBlock.

Inductive Value :=
| VBool (b : bool)
| VString (s : string)
| VTokens (ts : list Z)
| VTokenLists (tss : list (list Z))
| VStrings (ss : list string).

(** What a method call returns, and the object afterwards. *)
Definition call (m : Method) (f : CosmeticFilter) : Value * CosmeticFilter :=
  match m with
  | IsCosmeticFilter => (VBool true, f)
  | IsNetworkFilter => (VBool false, f)
  | ToString => (VString (toString f), f)
  | GetTokens => (VTokenLists (getTokens f), f)
  | GetTokensSelector => (VTokens (getTokensSelector f), f)
  | GetSelector => (VString (getSelector f), f)
  | HasHostnames => (VBool (hasHostnames f), f)
  | GetHostnames => let '(arr, f') := getHostnames f in (VStrings arr, f')
  | IsUnhide => (VBool (isUnhide f), f)
  | IsScriptInject => (VBool (isScriptInject f), f)
  | IsScriptBlock => (VBool (isScriptBlock f), f)
  end.

(** The object after a sequence of calls. *)
Definition after (ms : list Method) (f : CosmeticFilter) : CosmeticFilter :=
  foldl (fun f m => snd (call m f)) f ms.

End Cosmetic.

(** A concrete instance of the external capabilities, used to run the
    definitions on examples: a signature and token per character code, and a
    length hash. *)
Definition codesOf (s : string) : list nat :=
  map nat_of_ascii (list_ascii_of_string s).

#[local] Instance sampleUtils : Utils := {|
  createFuzzySignature := fun s => map N.of_nat (codesOf s);
  tokenizeCSS := fun s => map Z.of_nat (codesOf s);
  fastHash := fun s => JS.len s;
|}.

(** ** Specification vocabulary for the hostname anchor *)

(** [needle] occurs in [s] at position [p]. *)
Definition occursAt (needle s : string) (p : nat) : Prop :=
  String.substring p (String.length needle) s = needle.

(** [p] is the position of the leftmost occurrence of [needle] in [s]. *)
Definition leftmostAt (needle s : string) (p : nat) : Prop :=
  occursAt needle s p /\ forall q, (q < p)%nat -> ~ occursAt needle s q.

(** The character of [s] at position [n] is a dot. *)
Definition dotAt (s : string) (n : nat) : bool :=
  match String.get n s with
  | Some c => Ascii.eqb c dot
  | None => false
  end.

(** [s] ends with a dot. *)
Fixpoint endsWithDot (s : string) : bool :=
  match s with
  | EmptyString => false
  | String c EmptyString => Ascii.eqb c dot
  | String _ s' => endsWithDot s'
  end.

(** The boundary rules of the anchor for an occurrence of [fh] in [h] at
    position [p], as the specification words them. *)
Definition boundaryOk (fh h : string) (p : nat) : bool :=
  match p with
  | O =>
      String.eqb h fh || endsWithDot fh || dotAt h (String.length fh)
  | S p' =>
      (dotAt h p' || dotAt fh 0) &&
      ((p + String.length fh =? String.length h)%nat ||
       endsWithDot fh || dotAt h (p + String.length fh))
  end.

(** ** Specification vocabulary for the fuzzy matcher *)

(** The positions [ps] are strictly increasing, the first being at least [k]. *)
Fixpoint increasingFrom (k : nat) (ps : list nat) : Prop :=
  match ps with
  | [] => True
  | p :: ps' => (k <= p)%nat /\ increasingFrom (S p) ps'
  end.

(** The symbols of [signature] are found in [requestSignature] at the
    positions [ps], symbol by symbol. *)
Definition foundAt (signature requestSignature : list N) (ps : list nat) : Prop :=
  Forall2 (fun c p => requestSignature !! p = Some c) signature ps.

(** [signature] is an order-preserving subsequence of [requestSignature]. *)
Definition subsequenceOf (signature requestSignature : list N) : Prop :=
  exists ps, foundAt signature requestSignature ps /\ increasingFrom 0 ps.

(** ** Specification vocabulary for the hostname-anchored strategy *)

(** [s] starts with [p]. *)
Definition startsWith (s p : string) : Prop :=
  exists tail, s = p +:+ tail.

(** [rest] is what follows the leftmost occurrence of [h] in [u]. *)
Definition remainderAfter (u h rest : string) : Prop :=
  exists pre, u = pre +:+ h +:+ rest /\ leftmostAt h u (String.length pre).

(** A hostname-anchored plain filter [||example.com/ads] without options, and
    a request for it. *)
Definition exampleAdsFilter : NetworkFilter :=
  {| isHostnameAnchor := true; isRegex := false; isLeftAnchor := false;
     isRightAnchor := false; isFuzzy := false;
     firstParty := true; thirdParty := true;
     isCptAllowed := fun _ => true;
     hasOptDomains := false; getOptDomains := ∅;
     hasOptNotDomains := false; getOptNotDomains := ∅;
     getFilter := "/ads"; getRegex := fun _ => false;
     getHostname := "example.com"; getFuzzySignature := [] |}.

Definition exampleAdsRequest : IRequest :=
  {| url := "https://example.com/ads/banner.png"; hostname := "example.com";
     sourceHostname := "news.org"; sourceGD := "news.org";
     hostGD := "example.com"; cpt := 3; fuzzySignature := None |}.

(** A fuzzy filter restricted to pages of [shop.com], and a request issued
    from [news.org] whose signature cache is not installed yet. *)
Definition exampleDomainFilter : NetworkFilter :=
  {| isHostnameAnchor := false; isRegex := false; isLeftAnchor := false;
     isRightAnchor := false; isFuzzy := true;
     firstParty := true; thirdParty := true;
     isCptAllowed := fun _ => true;
     hasOptDomains := true; getOptDomains := {[ "shop.com" ]};
     hasOptNotDomains := false; getOptNotDomains := ∅;
     getFilter := "ads"; getRegex := fun _ => false;
     getHostname := ""; getFuzzySignature := [97; 100; 115]%N |}.

(** A request whose signature cache is already installed. *)
Definition exampleCachedRequest : IRequest :=
  {| url := "https://cdn.net/ad"; hostname := "cdn.net";
     sourceHostname := "shop.com"; sourceGD := "shop.com";
     hostGD := "cdn.net"; cpt := 2; fuzzySignature := Some [97; 100]%N |}.

(** ** Specification vocabulary for the cosmetic parser *)

(** [s] ends with [suffix]. *)
Definition endsWithText (s suffix : string) : Prop :=
  exists pre, s = pre +:+ suffix.

(** [needle] occurs somewhere in [s]. *)
Definition occursIn (needle s : string) : Prop :=
  exists p, occursAt needle s p.

(** The line with its first character removed. *)
Definition dropFirst (line : string) : string :=
  match line with
  | EmptyString => EmptyString
  | String _ rest => rest
  end.

(** The rejection test of [parseCosmeticFilter] on the parsed fields. *)
Definition rejected {U : Utils} (line : string) : bool :=
  (JS.len (parsedSelector line) =? 0) ||
  JS.endsWith (parsedSelector line) "}" ||
  negb (JS.indexOf (parsedSelector line) "##" =? -1) ||
  (getBit (parsedMask line) COSMETICS_MASK.unhide && (JS.len (parsedHostnames line) =? 0)).

(** A separator of the grammar, [##] or [#@#], occurs in [s]. *)
Definition containsSeparator (s : string) : Prop :=
  occursIn "##" s \/ occursIn "#@#" s.

(** The statement that a line is dropped as soon as its parsed selector is
    empty, ends with ['}'], holds a further separator of either kind, or the
    filter is an unhide one without hostnames. *)
Definition dropsMalformed {U : Utils} (line : string) : Prop :=
  parsedSelector line = "" \/
  endsWithText (parsedSelector line) "}" \/
  containsSeparator (parsedSelector line) \/
  (getBit (parsedMask line) COSMETICS_MASK.unhide = true /\
   parsedHostnames line = "") ->
  parseCosmeticFilter line = None.

(** The statement that a line without ['#'] parses to its tail, with the
    conditions on the line and on its tail only. *)
Definition parsesToTail {U : Utils} (line : string) : Prop :=
  ~ occursIn "#" line ->
  String.get 0 line <> Some "@"%char ->
  dropFirst line <> "" ->
  ~ endsWithText (dropFirst line) "}" ->
  ~ occursIn "##" (dropFirst line) ->
  exists f, parseCosmeticFilter line = Some f /\
            selector f = dropFirst line /\ hostnames f = "" /\ mask f = 0.

(** An installed hostnames array of a filter with hostnames is not empty. *)
Definition cacheFilled (f : CosmeticFilter) : Prop :=
  forall arr, hostnamesArray f = Some arr -> arr <> [].

(** ** Specification vocabulary for the selector tokenizer *)

(** The character of [sel] at index [i] is a combinator. *)
Definition combinatorAt (sel : string) (i : nat) : bool :=
  isCombinatorCode (JS.charCodeAt sel i).

Definition isBracket (c : ascii) : bool :=
  Ascii.eqb c "["%char || Ascii.eqb c "]"%char.

(** No bracket occurs in [s]. *)
Fixpoint bracketFree (s : string) : bool :=
  match s with
  | EmptyString => true
  | String c s' => negb (isBracket c) && bracketFree s'
  end.

(** Well-bracketed text. *)
Inductive Balanced : string -> Prop :=
| BalancedNil : Balanced ""
| BalancedChar (c : ascii) (s : string) :
    isBracket c = false -> Balanced s -> Balanced (String c s)
| BalancedSpan (inner s : string) :
    Balanced inner -> Balanced s -> Balanced ("[" +:+ inner +:+ "]" +:+ s).

(** A part outside brackets is kept when it is not empty. *)
Definition keepPart (plain : string) (segs : list string) : list string :=
  if String.eqb plain "" then segs else plain :: segs.

(** [segs] are the non-empty parts of a well-bracketed text that lie outside
    its bracketed spans, from left to right. *)
Inductive TopSegments : string -> list string -> Prop :=
| TopLast (plain : string) :
    bracketFree plain = true -> TopSegments plain (keepPart plain [])
| TopSpan (plain inner rest : string) (segs : list string) :
    bracketFree plain = true -> Balanced inner -> TopSegments rest segs ->
    TopSegments (plain +:+ "[" +:+ inner +:+ "]" +:+ rest) (keepPart plain segs).

(** The split point as the specification words it: the last combinator met
    at bracket depth 0 when scanning from the end, [n] being [i + 1]. *)
Fixpoint specFindSepIndex (sel : string) (n : nat) (depth : Z) : nat :=
  match n with
  | O => O
  | S i =>
      match JS.charCodeAt sel i with
      | Some code =>
          if (code =? 93)%nat then specFindSepIndex sel i (depth + 1)
          else if (code =? 91)%nat then specFindSepIndex sel i (depth - 1)
          else if isCombinatorCode (Some code) && (depth =? 0) then i
          else specFindSepIndex sel i depth
      | None => specFindSepIndex sel i depth
      end
  end.

(** The tokens as the specification words them: the parts outside brackets
    from the top-level split point on. *)
Definition specTokensSelector {U : Utils} (sel : string) : list Z :=
  tokensFrom sel (specFindSepIndex sel (String.length sel) 0).

(** The statement that the tokenizer ignores combinators inside brackets. *)
Definition splitsAtTopLevelCombinator {U : Utils} (f : CosmeticFilter) : Prop :=
  isScriptInject f = false -> isScriptBlock f = false ->
  getTokensSelector f = specTokensSelector (selector f).

(** The forward loop over the characters [suffix] that start at index [i]. *)
Fixpoint scanSuffix {U : Utils} (sel suffix : string) (i : nat) (st : Scan) : Scan :=
  match suffix with
  | EmptyString => st
  | String c suffix' =>
      scanSuffix sel suffix' (S i) (scanCode sel (nat_of_ascii c) i st)
  end.

(** An attribute selector with a combinator character inside its brackets. *)
Definition exampleAttributeFilter : CosmeticFilter :=
  newCosmeticFilter 0 ".a[b~=c].d" "" 12.

(** ** Further specification vocabulary *)

(** [s] is a suffix of [u]. *)
Definition suffixOf (s u : string) : Prop :=
  exists pre, u = pre +:+ s.

(** A hostname-anchored filter [||example.com/ads|], right-anchored. *)
Definition exampleRightAnchorFilter : NetworkFilter :=
  {| isHostnameAnchor := true; isRegex := false; isLeftAnchor := false;
     isRightAnchor := true; isFuzzy := false;
     firstParty := true; thirdParty := true;
     isCptAllowed := fun _ => true;
     hasOptDomains := false; getOptDomains := ∅;
     hasOptNotDomains := false; getOptNotDomains := ∅;
     getFilter := "/ads"; getRegex := fun _ => false;
     getHostname := "example.com"; getFuzzySignature := [] |}.

(** A request on another site. *)
Definition exampleOtherRequest : IRequest :=
  {| url := "https://notexample.com/ads"; hostname := "notexample.com";
     sourceHostname := "news.org"; sourceGD := "news.org";
     hostGD := "notexample.com"; cpt := 3; fuzzySignature := None |}.

(** A request whose URL ends with [/ads]. *)
Definition exampleAdsEndRequest : IRequest :=
  {| url := "https://example.com/ads"; hostname := "example.com";
     sourceHostname := "news.org"; sourceGD := "news.org";
     hostGD := "example.com"; cpt := 3; fuzzySignature := None |}.

(** A plain filter [banner] without anchors or options. *)
Definition examplePlainFilter : NetworkFilter :=
  {| isHostnameAnchor := false; isRegex := false; isLeftAnchor := false;
     isRightAnchor := false; isFuzzy := false;
     firstParty := true; thirdParty := true;
     isCptAllowed := fun _ => true;
     hasOptDomains := false; getOptDomains := ∅;
     hasOptNotDomains := false; getOptNotDomains := ∅;
     getFilter := "banner"; getRegex := fun _ => false;
     getHostname := ""; getFuzzySignature := [] |}.

(** A fuzzy filter excluded on pages of [news.org]. *)
Definition exampleDenyFilter : NetworkFilter :=
  {| isHostnameAnchor := false; isRegex := false; isLeftAnchor := false;
     isRightAnchor := false; isFuzzy := true;
     firstParty := true; thirdParty := true;
     isCptAllowed := fun _ => true;
     hasOptDomains := false; getOptDomains := ∅;
     hasOptNotDomains := true; getOptNotDomains := {[ "news.org" ]};
     getFilter := "ads"; getRegex := fun _ => false;
     getHostname := ""; getFuzzySignature := [97; 100; 115]%N |}.

(** A filter that admits neither first-party nor third-party requests. *)
Definition exampleNoPartyFilter : NetworkFilter :=
  {| isHostnameAnchor := false; isRegex := false; isLeftAnchor := false;
     isRightAnchor := false; isFuzzy := false;
     firstParty := false; thirdParty := false;
     isCptAllowed := fun _ => true;
     hasOptDomains := false; getOptDomains := ∅;
     hasOptNotDomains := false; getOptNotDomains := ∅;
     getFilter := ""; getRegex := fun _ => true;
     getHostname := ""; getFuzzySignature := [] |}.

(** A request for a URL that contains the characters [a], [d], [s] in this
    order, cache not installed. *)
Definition exampleFuzzyRequest : IRequest :=
  {| url := "ads"; hostname := "";
     sourceHostname := "shop.com"; sourceGD := "shop.com";
     hostGD := "cdn.net"; cpt := 2; fuzzySignature := None |}.

(** The separator [toString] writes between hostnames and selector. *)
Definition renderedSeparator (unhide : bool) : string :=
  if unhide then "#@#" else "##".

(** The mask the parser starts the selector with. *)
Definition separatorMask (unhide : bool) : Z :=
  if unhide then setBit 0 COSMETICS_MASK.unhide else 0.

(** The text [toString] writes after the separator. *)
Definition renderedBody (f : CosmeticFilter) : string :=
  if isScriptInject f then "script:inject(" +:+ selector f +:+ ")"
  else if isScriptBlock f then "script:contains(" +:+ selector f +:+ ")"
  else selector f.

(** The filter [shop.com#@#script:contains(tracker)]. *)
Definition exampleScriptFilter : CosmeticFilter :=
  newCosmeticFilter 5 "tracker" "shop.com" 0.

(** The fields of a filter that the parser reads from the text. *)
Definition fieldsOf (f : CosmeticFilter) : Z * string * string :=
  (mask f, selector f, hostnames f).

(** Longer or equal: the order [getHostnames] sorts by. *)
Definition notShorter (a b : string) : Prop :=
  (String.length b <= String.length a)%nat.

(** No character of [s] is [c]. *)
Fixpoint charFree (c : ascii) (s : string) : bool :=
  match s with
  | EmptyString => true
  | String d s' => negb (Ascii.eqb d c) && charFree c s'
  end.

(** Every element is at least as long as all the later ones. *)
Fixpoint longestFirst (l : list string) : Prop :=
  match l with
  | [] => True
  | a :: l' => Forall (notShorter a) l' /\ longestFirst l'
  end.

(** A hide filter scoped to three sites. *)
Definition exampleScopedFilter : CosmeticFilter :=
  newCosmeticFilter 0 ".ad" "a.com,shop.example.org,bb.net" 0.

(** No character of [s] is a combinator. *)
Fixpoint combinatorFree (s : string) : bool :=
  match s with
  | EmptyString => true
  | String c s' => negb (isCombinatorCode (Some (nat_of_ascii c))) && combinatorFree s'
  end.

(** The hide filter of the selector [a[href~=x].ad]. *)
Definition exampleTildeFilter : CosmeticFilter :=
  newCosmeticFilter 0 "a[href~=x].ad" "" 0.

(** * Properties *)

(** ** Strings *)

Lemma substring_whole (s : string) :
  String.substring 0 (String.length s) s = s.
Proof. induction s as [|c s IH]; simpl; [reflexivity | now rewrite IH]. Qed.

Lemma substring_length_le (n m : nat) (s : string) :
  (String.length (String.substring n m s) <= m)%nat.
Proof.
  revert n m; induction s as [|c s IH]; intros [|n] [|m]; simpl; try lia.
  - specialize (IH 0%nat m). lia.
  - apply (IH n 0%nat).
  - apply (IH n (S m)).
Qed.

Lemma substring_length_bound (n m : nat) (s : string) :
  (String.length (String.substring n m s) <= String.length s - n)%nat.
Proof.
  revert n m; induction s as [|c s IH]; intros [|n] [|m]; simpl; try lia.
  - specialize (IH 0%nat m). lia.
  - apply (IH n 0%nat).
  - apply (IH n (S m)).
Qed.

Lemma occursAt_bound (needle s : string) (p : nat) :
  occursAt needle s p -> (p + String.length needle <= String.length s)%nat \/ needle = "".
Proof.
  unfold occursAt. intros Hocc.
  destruct needle as [|c needle]; [now right | left].
  pose proof (substring_length_bound p (String.length (String c needle)) s) as Hb.
  rewrite Hocc in Hb. simpl in *. lia.
Qed.

Lemma leftmostAt_unique (needle s : string) (p q : nat) :
  leftmostAt needle s p -> leftmostAt needle s q -> p = q.
Proof.
  intros [Hp Hp'] [Hq Hq'].
  destruct (lt_eq_lt_dec p q) as [[Hlt | ->] | Hlt]; [| reflexivity |].
  - exfalso. exact (Hq' p Hlt Hp).
  - exfalso. exact (Hp' q Hlt Hq).
Qed.

Lemma index_leftmost (needle s : string) (n : nat) :
  String.index 0 needle s = Some n -> leftmostAt needle s n.
Proof.
  intros Hidx. split.
  - exact (index_correct1 0 n needle s Hidx).
  - intros q Hq. apply (index_correct2 0 n needle s Hidx q); lia.
Qed.

Lemma index_absent (needle s : string) (q : nat) :
  needle <> "" -> String.index 0 needle s = None -> ~ occursAt needle s q.
Proof.
  intros Hne Hidx. apply (index_correct3 0 q needle s Hidx Hne). lia.
Qed.

Lemma indexOf_leftmost (s needle : string) (n : nat) :
  JS.indexOf s needle = Z.of_nat n -> leftmostAt needle s n.
Proof.
  unfold JS.indexOf. destruct (String.index 0 needle s) as [m|] eqn:Hidx.
  - intros Heq. apply Nat2Z.inj in Heq. subst m. now apply index_leftmost.
  - lia.
Qed.

Lemma charIs_nat (s : string) (n : nat) :
  JS.charIs s (Z.of_nat n) dot = dotAt s n.
Proof.
  unfold JS.charIs, JS.charAt, dotAt.
  destruct (Z.ltb_spec (Z.of_nat n) 0) as [Hlt|_]; [lia|].
  now rewrite Nat2Z.id.
Qed.

Lemma charIs_neg (s : string) (z : Z) (c : ascii) :
  z < 0 -> JS.charIs s z c = false.
Proof.
  intros Hz. unfold JS.charIs, JS.charAt.
  destruct (Z.ltb_spec z 0); [reflexivity | lia].
Qed.

Lemma endsWithDot_last (s : string) :
  s <> "" -> endsWithDot s = dotAt s (String.length s - 1).
Proof.
  induction s as [|c s IH]; [congruence|]. intros _.
  destruct s as [|c' s'].
  - reflexivity.
  - change (endsWithDot (String c (String c' s'))) with (endsWithDot (String c' s')).
    rewrite IH by discriminate.
    unfold dotAt. simpl. now rewrite Nat.sub_0_r.
Qed.

(** ** The hostname anchor *)

(** On a non-empty [fh] found leftmost at [n] in [h], the returned expression
    is the boundary test at [n]. *)
Lemma anchor_expression (fh h : string) (n : nat) :
  fh <> "" -> occursAt fh h n ->
  (((Z.of_nat n =? 0) &&
    ((JS.len h =? JS.len fh) ||
     JS.charIs fh (JS.len fh - 1) dot ||
     JS.charIs h (JS.len fh) dot))
   ||
   ((JS.charIs h (Z.of_nat n - 1) dot || JS.charIs fh 0 dot) &&
    ((JS.len h - Z.of_nat n =? JS.len fh) ||
     JS.charIs fh (JS.len fh - 1) dot ||
     JS.charIs h (Z.of_nat n + JS.len fh) dot)))
  = boundaryOk fh h n.
Proof.
  intros Hne Hocc.
  assert (Hlast : JS.charIs fh (JS.len fh - 1) dot = endsWithDot fh).
  { rewrite (endsWithDot_last fh Hne). unfold JS.len.
    destruct fh as [|c fh']; [congruence|].
    replace (Z.of_nat (String.length (String c fh')) - 1)
      with (Z.of_nat (String.length (String c fh') - 1)) by (simpl; lia).
    apply charIs_nat. }
  rewrite Hlast. unfold JS.len.
  destruct n as [|n'].
  - change (Z.of_nat 0) with 0. rewrite Z.sub_0_r, Z.add_0_l.
    rewrite (charIs_neg h (0 - 1)) by lia.
    rewrite !charIs_nat.
    change (JS.charIs fh 0 dot) with (JS.charIs fh (Z.of_nat 0) dot).
    rewrite charIs_nat. simpl boundaryOk.
    assert (Heq : (Z.of_nat (String.length h) =? Z.of_nat (String.length fh))
                  = String.eqb h fh).
    { destruct (String.eqb_spec h fh) as [->|Hneq].
      - apply Z.eqb_refl.
      - apply Z.eqb_neq. intros Hlen. apply Nat2Z.inj in Hlen.
        apply Hneq. unfold occursAt in Hocc. rewrite <- Hlen in Hocc.
        now rewrite substring_whole in Hocc. }
    rewrite Heq.
    destruct (String.eqb h fh), (endsWithDot fh), (dotAt h (String.length fh)),
      (dotAt fh 0); reflexivity.
  - replace (Z.of_nat (S n') =? 0) with false by (symmetry; apply Z.eqb_neq; lia).
    replace (Z.of_nat (S n') - 1) with (Z.of_nat n') by lia.
    replace (Z.of_nat (S n') + Z.of_nat (String.length fh))
      with (Z.of_nat (S n' + String.length fh)) by lia.
    rewrite !charIs_nat.
    change (JS.charIs fh 0 dot) with (JS.charIs fh (Z.of_nat 0) dot).
    rewrite charIs_nat. cbn [boundaryOk andb orb].
    replace (Z.of_nat (String.length h) - Z.of_nat (S n') =? Z.of_nat (String.length fh))
      with ((S n' + String.length fh =? String.length h)%nat).
    + reflexivity.
    + destruct (Nat.eqb_spec (S n' + String.length fh) (String.length h)) as [He|He];
        symmetry; [apply Z.eqb_eq | apply Z.eqb_neq]; lia.
Qed.

(** [isAnchoredByHostname] in terms of the leftmost occurrence. *)
Lemma isAnchoredByHostname_spec (fh h : string) :
  isAnchoredByHostname fh h = true <->
  fh = "" \/
  ((String.length fh <= String.length h)%nat /\
   exists p, leftmostAt fh h p /\ boundaryOk fh h p = true).
Proof.
  unfold isAnchoredByHostname.
  destruct (Z.eqb_spec (JS.len fh) 0) as [H0|H0].
  { split; [intros _; left | reflexivity].
    destruct fh; [reflexivity | unfold JS.len in H0; simpl in H0; lia]. }
  assert (Hne : fh <> "") by (intros ->; now apply H0).
  destruct (Z.gtb_spec (JS.len fh) (JS.len h)) as [Hgt|Hle].
  { split; [discriminate|]. intros [?|[Hlen _]]; [easy|]. unfold JS.len in Hgt. lia. }
  cbv zeta.
  destruct (String.index 0 fh h) as [n|] eqn:Hidx.
  - assert (Hi : JS.indexOf h fh = Z.of_nat n) by (unfold JS.indexOf; now rewrite Hidx).
    rewrite Hi.
    replace (Z.of_nat n =? -1) with false by (symmetry; apply Z.eqb_neq; lia).
    pose proof (index_leftmost fh h n Hidx) as Hleft.
    rewrite (anchor_expression fh h n Hne (proj1 Hleft)).
    split.
    + intros Hb. right. split; [unfold JS.len in Hle; lia|]. now exists n.
    + intros [?|[_ [p [Hp Hb]]]]; [easy|].
      now rewrite (leftmostAt_unique fh h n p Hleft Hp).
  - assert (Hi : JS.indexOf h fh = -1) by (unfold JS.indexOf; now rewrite Hidx).
    rewrite Hi. simpl. split; [discriminate|].
    intros [?|[_ [p [[Hp _] _]]]]; [easy|].
    exfalso. exact (index_absent fh h p Hne Hidx Hp).
Qed.

(** C1: [isAnchoredByHostname] returns true exactly when the filter hostname
    is empty, or it is no longer than the hostname, occurs in it, and its
    leftmost occurrence passes the boundary rules (at position 0: equal to the
    hostname, or ending with a dot, or followed by a dot; elsewhere: preceded
    by a dot or starting with a dot, and being a suffix, or ending with a dot,
    or followed by a dot); with the five listed values. *)
Theorem C1_isAnchoredByHostname_boundary_rules :
  (forall fh h : string,
     isAnchoredByHostname fh h = true <->
     fh = "" \/
     ((String.length fh <= String.length h)%nat /\
      exists p, leftmostAt fh h p /\ boundaryOk fh h p = true)) /\
  isAnchoredByHostname "" "x.com" = true /\
  isAnchoredByHostname "com" "x.com" = true /\
  isAnchoredByHostname "example.com" "notexample.com" = false /\
  isAnchoredByHostname "ample.com" "example.com" = false /\
  isAnchoredByHostname "x.com" "x.com" = true.
Proof.
  split; [exact isAnchoredByHostname_spec|].
  repeat split; reflexivity.
Qed.

(** C4: only the leftmost occurrence is tried: for the filter hostname [foo]
    and the hostname [xfoo.foo] the leftmost occurrence (position 1) fails the
    boundary rules and the predicate returns false, although the occurrence
    at position 5 passes them. *)
Theorem C4_leftmost_occurrence_only :
  exists (fh h : string) (p q : nat),
    isAnchoredByHostname fh h = false /\
    leftmostAt fh h p /\ boundaryOk fh h p = false /\
    (p < q)%nat /\ occursAt fh h q /\ boundaryOk fh h q = true.
Proof.
  exists "foo", "xfoo.foo", 1%nat, 5%nat.
  split; [reflexivity|].
  split; [apply indexOf_leftmost; reflexivity|].
  repeat split; try reflexivity. lia.
Qed.

(** ** The fuzzy matcher *)

Lemma indexOfFrom_found (arr : list N) (c : N) (k : nat) (j : Z) :
  indexOfFrom arr c (Z.of_nat k) = j -> j <> -1 ->
  exists i, j = Z.of_nat i /\ (k <= i)%nat /\ arr !! i = Some c /\
            forall i', (k <= i')%nat -> (i' < i)%nat -> arr !! i' <> Some c.
Proof.
  unfold indexOfFrom.
  destruct (Z.ltb_spec (Z.of_nat k) 0) as [Hlt|_]; [lia|].
  rewrite Nat2Z.id.
  destruct (list_find (fun x => x = c) (drop k arr)) as [[i x]|] eqn:Hfind.
  - intros <- _. apply list_find_Some in Hfind as (Hlook & -> & Hleast).
    rewrite lookup_drop in Hlook.
    exists (k + i)%nat. repeat split; [lia | exact Hlook |].
    intros i' Hk Hi' Hc.
    apply (Hleast (i' - k)%nat c); [| lia | reflexivity].
    rewrite lookup_drop. now replace (k + (i' - k))%nat with i' by lia.
  - intros <- Hj. now contradiction Hj.
Qed.

Lemma indexOfFrom_absent (arr : list N) (c : N) (k i : nat) :
  indexOfFrom arr c (Z.of_nat k) = -1 -> (k <= i)%nat -> arr !! i <> Some c.
Proof.
  unfold indexOfFrom.
  destruct (Z.ltb_spec (Z.of_nat k) 0) as [Hlt|_]; [lia|].
  rewrite Nat2Z.id.
  destruct (list_find (fun x => x = c) (drop k arr)) as [[j x]|] eqn:Hfind; [lia|].
  intros _ Hk Hc. apply list_find_None in Hfind.
  rewrite Forall_lookup in Hfind.
  apply (Hfind (i - k)%nat c); [| reflexivity].
  rewrite lookup_drop. now replace (k + (i - k))%nat with i by lia.
Qed.

Lemma increasingFrom_weaken (k k' : nat) (ps : list nat) :
  (k' <= k)%nat -> increasingFrom k ps -> increasingFrom k' ps.
Proof. destruct ps as [|p ps]; simpl; [trivial|]. intros Hk [Hp Hps]. split; [lia | exact Hps]. Qed.

(** The loop started at [k] succeeds exactly when the remaining symbols are
    found at increasing positions from [k] on. *)
Lemma fuzzyLoop_spec (signature requestSignature : list N) (k : nat) :
  fuzzyLoop signature requestSignature (Z.of_nat k) = true <->
  exists ps, foundAt signature requestSignature ps /\ increasingFrom k ps.
Proof.
  revert k. induction signature as [|c rest IH]; intros k; simpl.
  - split; [intros _ | reflexivity]. exists []. split; [constructor | exact I].
  - destruct (Z.eqb_spec (indexOfFrom requestSignature c (Z.of_nat k)) (-1)) as [Hj|Hj].
    + split; [discriminate|]. intros (ps & Hfound & Hinc).
      inversion Hfound as [|c' p rest' ps' Hp Hrest]; subst.
      destruct Hinc as [Hkp _].
      exfalso. exact (indexOfFrom_absent requestSignature c k p Hj Hkp Hp).
    + destruct (indexOfFrom_found requestSignature c k _ eq_refl Hj)
        as (i & Hi & Hki & Hlook & Hleast).
      rewrite Hi. replace (Z.of_nat i + 1) with (Z.of_nat (S i)) by lia.
      rewrite IH. split.
      * intros (ps & Hfound & Hinc). exists (i :: ps). split.
        -- constructor; assumption.
        -- split; assumption.
      * intros (ps & Hfound & Hinc).
        inversion Hfound as [|c' p rest' ps' Hp Hrest]; subst.
        destruct Hinc as [Hkp Hinc].
        exists ps'. split; [exact Hrest|].
        apply (increasingFrom_weaken (S p)); [|exact Hinc].
        destruct (le_lt_dec i p) as [Hle|Hlt]; [lia|].
        exfalso. exact (Hleast p Hkp Hlt Hp).
Qed.

Lemma increasing_positions_count (requestSignature : list N) (signature : list N)
    (ps : list nat) (k : nat) :
  foundAt signature requestSignature ps -> increasingFrom k ps ->
  (length signature <= length requestSignature - k)%nat.
Proof.
  intros Hfound. revert k.
  induction Hfound as [|c p rest ps' Hp _ IH]; intros k; simpl.
  - lia.
  - intros [Hkp Hinc]. specialize (IH (S p) Hinc).
    apply lookup_lt_Some in Hp. lia.
Qed.

Lemma subsequenceOf_length (signature requestSignature : list N) :
  subsequenceOf signature requestSignature ->
  (length signature <= length requestSignature)%nat.
Proof.
  intros (ps & Hfound & Hinc).
  pose proof (increasing_positions_count _ _ _ _ Hfound Hinc). lia.
Qed.

Lemma fuzzyMatch_spec (signature requestSignature : list N) :
  fuzzyMatch signature requestSignature = true <->
  subsequenceOf signature requestSignature.
Proof.
  unfold fuzzyMatch.
  destruct (Z.gtb_spec (Z.of_nat (length signature)) (Z.of_nat (length requestSignature)))
    as [Hgt|Hle].
  - split; [discriminate|]. intros Hsub%subsequenceOf_length. lia.
  - exact (fuzzyLoop_spec signature requestSignature 0).
Qed.

Lemma fuzzyMatch_longer (signature requestSignature : list N) :
  (length requestSignature < length signature)%nat ->
  fuzzyMatch signature requestSignature = false.
Proof.
  intros Hlen. unfold fuzzyMatch.
  destruct (Z.gtb_spec (Z.of_nat (length signature)) (Z.of_nat (length requestSignature)));
    [reflexivity | lia].
Qed.

Section FuzzyProperties.
Context {U : Utils}.

(** C2: the fuzzy matcher is an order-preserving subsequence test. With the
    request signature being the cached one, or the one derived from the URL
    when the cache is unset: a longer filter signature fails; otherwise the
    match succeeds exactly when the filter symbols are found in the request
    signature at strictly increasing positions. [1,2,3] matches
    [0,1,5,2,9,3]; [1,3,2] does not match [1,2,3]. *)
Theorem C2_fuzzy_is_subsequence_test :
  (forall (filter : NetworkFilter) (request : IRequest),
     let signature := getFuzzySignature filter in
     let requestSignature := requestSignatureOf request in
     ((length requestSignature < length signature)%nat ->
      fst (checkPatternFuzzyFilter filter request) = false) /\
     (fst (checkPatternFuzzyFilter filter request) = true <->
      subsequenceOf signature requestSignature)) /\
  fuzzyMatch [1; 2; 3]%N [0; 1; 5; 2; 9; 3]%N = true /\
  fuzzyMatch [1; 3; 2]%N [1; 2; 3]%N = false.
Proof.
  split; [|split; reflexivity].
  intros filter request signature requestSignature.
  unfold checkPatternFuzzyFilter. cbn [fst].
  fold (requestSignatureOf request). fold requestSignature. fold signature.
  split.
  - apply fuzzyMatch_longer.
  - apply fuzzyMatch_spec.
Qed.

End FuzzyProperties.

Lemma C2_fuzzy_is_subsequence_test_witness :
  fst (checkPatternFuzzyFilter (U := sampleUtils) exampleDomainFilter exampleCachedRequest)
  = false.
Proof.
  apply (proj1 (proj1 (C2_fuzzy_is_subsequence_test (U := sampleUtils))
                  exampleDomainFilter exampleCachedRequest)).
  simpl. lia.
Defined.

(** ** The hostname-anchored strategy *)

Lemma length_append (a b : string) :
  String.length (a +:+ b) = (String.length a + String.length b)%nat.
Proof. induction a as [|c a IH]; simpl; [reflexivity | now rewrite IH]. Qed.

Lemma substring_append_skip (a b : string) (n m : nat) :
  String.substring (String.length a + n) m (a +:+ b) = String.substring n m b.
Proof. induction a as [|c a IH]; simpl; [reflexivity | exact IH]. Qed.

Lemma substring_append_take (a b : string) :
  String.substring 0 (String.length a) (a +:+ b) = a.
Proof. induction a as [|c a IH]; simpl; [now destruct b | now rewrite IH]. Qed.

Lemma prefix_startsWith (p s : string) :
  String.prefix p s = true <-> startsWith s p.
Proof.
  unfold startsWith. revert s. induction p as [|c p IH]; intros s.
  - split; [intros _; now exists s | intros _; now destruct s].
  - destruct s as [|d s]; simpl.
    + split; [discriminate | intros [tail Ht]; discriminate].
    + destruct (ascii_dec c d) as [->|Hne].
      * rewrite IH. split; intros [tail Ht]; exists tail; [now rewrite Ht | now injection Ht].
      * split; [discriminate | intros [tail Ht]; injection Ht; congruence].
Qed.

Lemma indexOf_of_leftmost (s needle : string) (p : nat) :
  leftmostAt needle s p -> JS.indexOf s needle = Z.of_nat p.
Proof.
  intros Hleft. unfold JS.indexOf.
  destruct (String.index 0 needle s) as [n|] eqn:Hidx.
  - f_equal. exact (leftmostAt_unique needle s n p (index_leftmost _ _ _ Hidx) Hleft).
  - exfalso. destruct needle as [|c needle].
    + destruct s; simpl in Hidx; discriminate.
    + apply (index_absent (String c needle) s p); [discriminate | exact Hidx | apply Hleft].
Qed.

(** When the hostname occurs in the URL, [getUrlAfterHostname] is what
    follows its leftmost occurrence. *)
Lemma getUrlAfterHostname_remainder (u h rest : string) :
  remainderAfter u h rest -> getUrlAfterHostname u h = rest.
Proof.
  intros (pre & Hu & Hleft). unfold getUrlAfterHostname.
  rewrite (indexOf_of_leftmost u h _ Hleft).
  unfold JS.substringFrom, JS.substring, JS.clamp, JS.len.
  assert (Hlen : String.length u
                 = (String.length pre + (String.length h + String.length rest))%nat).
  { rewrite Hu at 1. now rewrite !length_append. }
  rewrite Hlen.
  replace (Z.to_nat (Z.max 0 (Z.min (Z.of_nat (String.length pre) + Z.of_nat (String.length h))
             (Z.of_nat (String.length pre + (String.length h + String.length rest))))))
    with (String.length pre + String.length h)%nat by lia.
  replace (Z.to_nat (Z.max 0 (Z.min
             (Z.of_nat (String.length pre + (String.length h + String.length rest)))
             (Z.of_nat (String.length pre + (String.length h + String.length rest))))))
    with (String.length pre + (String.length h + String.length rest))%nat by lia.
  rewrite Nat.min_l, Nat.max_r by lia.
  replace (String.length pre + (String.length h + String.length rest)
           - (String.length pre + String.length h))%nat
    with (String.length rest) by lia.
  rewrite Hu, substring_append_skip.
  replace (String.length h) with (String.length h + 0)%nat at 1 by lia.
  rewrite substring_append_skip. apply substring_whole.
Qed.

Section HostnameAnchorProperties.
Context {U : Utils}.



End HostnameAnchorProperties.


(** ** Options and the whole match *)

Section MatchProperties.
Context {U : Utils}.

(** C7: when the filter declares a non-empty allow-domain set and neither
    the request's [sourceGD] nor its [sourceHostname] is a member, the option
    check fails and [matchNetworkFilter] returns false without running the
    pattern dispatch: the request is left as it was, signature cache
    included. *)
Theorem C7_allow_domains_reject_before_pattern
    (filter : NetworkFilter) (request : IRequest) :
  hasOptDomains filter = true ->
  getOptDomains filter <> ∅ ->
  sourceGD request ∉ getOptDomains filter ->
  sourceHostname request ∉ getOptDomains filter ->
  checkOptions filter request = false /\
  matchNetworkFilter filter request = (false, request).
Proof.
  intros Hhas Hne Hgd Hhost.
  assert (Hopt : checkOptions filter request = false).
  { unfold checkOptions.
    destruct (negb (isCptAllowed filter (cpt request))); [reflexivity|].
    cbv zeta.
    destruct (negb (firstParty filter) && _); [reflexivity|].
    destruct (negb (thirdParty filter) && _); [reflexivity|].
    rewrite Hhas.
    assert (Hsize : (0 <? Z.of_nat (size (getOptDomains filter))) = true).
    { apply Z.ltb_lt.
      assert (size (getOptDomains filter) <> 0%nat); [|lia].
      apply size_non_empty_iff. intros Hempty. apply Hne.
      now apply leibniz_equiv. }
    rewrite Hsize.
    rewrite (bool_decide_eq_false_2 _ Hgd), (bool_decide_eq_false_2 _ Hhost).
    reflexivity. }
  split; [exact Hopt|].
  unfold matchNetworkFilter. now rewrite Hopt.
Qed.

Lemma checkOptions_ensure (filter : NetworkFilter) (request : IRequest) :
  checkOptions filter (ensureFuzzySignature request) = checkOptions filter request.
Proof.
  unfold ensureFuzzySignature.
  destruct (fuzzySignature request); reflexivity.
Qed.

Lemma ensureFuzzySignature_idem (request : IRequest) :
  ensureFuzzySignature (ensureFuzzySignature request) = ensureFuzzySignature request.
Proof.
  unfold ensureFuzzySignature.
  destruct (fuzzySignature request) eqn:Hsig; [now rewrite Hsig | reflexivity].
Qed.

Lemma ensureFuzzySignature_fields (request : IRequest) :
  url (ensureFuzzySignature request) = url request /\
  hostname (ensureFuzzySignature request) = hostname request.
Proof.
  unfold ensureFuzzySignature.
  destruct (fuzzySignature request); split; reflexivity.
Qed.

Lemma checkPatternFuzzyFilter_again (filter : NetworkFilter) (request : IRequest) :
  checkPatternFuzzyFilter filter (ensureFuzzySignature request)
  = checkPatternFuzzyFilter filter request.
Proof.
  unfold checkPatternFuzzyFilter. now rewrite ensureFuzzySignature_idem.
Qed.

(** The request a dispatch leaves behind is the one it received, possibly
    with the signature installed. *)
Lemma checkPattern_request (filter : NetworkFilter) (request : IRequest) :
  snd (checkPattern filter request) = request \/
  snd (checkPattern filter request) = ensureFuzzySignature request.
Proof.
  unfold checkPattern, checkPatternHostnameAnchorFuzzyFilter, checkPatternFuzzyFilter.
  destruct (isHostnameAnchor filter), (isRegex filter), (isRightAnchor filter),
    (isFuzzy filter), (isLeftAnchor filter);
    cbn [andb snd]; auto;
    destruct (isAnchoredByHostname (getHostname filter) (hostname request));
    cbn [snd]; auto.
Qed.

Lemma checkPattern_again (filter : NetworkFilter) (request : IRequest) :
  checkPattern filter (ensureFuzzySignature request)
  = (fst (checkPattern filter request), ensureFuzzySignature request).
Proof.
  destruct (ensureFuzzySignature_fields request) as [Hurl Hhost].
  unfold checkPattern, checkPatternHostnameAnchorFuzzyFilter,
    checkPatternHostnameAnchorRegexFilter, checkPatternHostnameRightAnchorFilter,
    checkPatternHostnameAnchorFilter, checkPatternRegexFilter,
    checkPatternLeftRightAnchorFilter, checkPatternLeftAnchorFilter,
    checkPatternRightAnchorFilter, checkPatternPlainFilter, withUrl.
  rewrite checkPatternFuzzyFilter_again, Hurl, Hhost.
  unfold checkPatternFuzzyFilter.
  destruct (isHostnameAnchor filter), (isRegex filter), (isRightAnchor filter),
    (isFuzzy filter), (isLeftAnchor filter);
    cbn [andb fst snd url]; try reflexivity;
    destruct (isAnchoredByHostname (getHostname filter) (hostname request));
    cbn [fst snd]; reflexivity.
Qed.

Lemma matchNetworkFilter_request (filter : NetworkFilter) (request : IRequest) :
  snd (matchNetworkFilter filter request) = request \/
  snd (matchNetworkFilter filter request) = ensureFuzzySignature request.
Proof.
  unfold matchNetworkFilter. destruct (checkOptions filter request).
  - apply checkPattern_request.
  - now left.
Qed.

Lemma matchNetworkFilter_again (filter : NetworkFilter) (request : IRequest) :
  matchNetworkFilter filter (ensureFuzzySignature request)
  = (fst (matchNetworkFilter filter request), ensureFuzzySignature request).
Proof.
  unfold matchNetworkFilter. rewrite checkOptions_ensure.
  destruct (checkOptions filter request); [apply checkPattern_again | reflexivity].
Qed.

(** C9: calling [matchNetworkFilter] a second time, on the request as the
    first call left it (with the fuzzy signature possibly installed), returns
    the same boolean, and leaves that request unchanged. *)
Theorem C9_matches_deterministic_across_calls
    (filter : NetworkFilter) (request : IRequest) :
  let first := matchNetworkFilter filter request in
  let second := matchNetworkFilter filter (snd first) in
  fst second = fst first /\ snd second = snd first.
Proof.
  cbv zeta.
  destruct (matchNetworkFilter_request filter request) as [Hsame|Hinst].
  - rewrite !Hsame. split; reflexivity.
  - rewrite Hinst, matchNetworkFilter_again. split; reflexivity.
Qed.

End MatchProperties.

Lemma C7_allow_domains_reject_before_pattern_witness :
  matchNetworkFilter (U := sampleUtils) exampleDomainFilter exampleAdsRequest
  = (false, exampleAdsRequest) /\
  checkPattern (U := sampleUtils) exampleDomainFilter exampleAdsRequest
  <> (false, exampleAdsRequest).
Proof.
  split.
  - apply (C7_allow_domains_reject_before_pattern (U := sampleUtils)
             exampleDomainFilter exampleAdsRequest).
    + reflexivity.
    + cbn [getOptDomains exampleDomainFilter]. intros Hempty.
      apply (not_elem_of_empty (C := gset string) "shop.com").
      rewrite <- Hempty. now apply elem_of_singleton_2.
    + cbn [getOptDomains exampleDomainFilter sourceGD exampleAdsRequest].
      intros Hin%elem_of_singleton_1. discriminate.
    + cbn [getOptDomains exampleDomainFilter sourceHostname exampleAdsRequest].
      intros Hin%elem_of_singleton_1. discriminate.
  - vm_compute. discriminate.
Defined.

(** ** The cosmetic parser *)

Lemma substring_split (n : nat) (s : string) :
  (n <= String.length s)%nat ->
  s = String.substring 0 n s +:+ String.substring n (String.length s - n) s.
Proof.
  revert n. induction s as [|c s IH]; intros [|n] Hn; simpl in *; try lia.
  - reflexivity.
  - now rewrite substring_whole.
  - transitivity (String c (String.substring 0 n s
                            +:+ String.substring n (String.length s - n) s));
      [f_equal; apply IH; lia | reflexivity].
Qed.

Lemma endsWith_spec (s suffix : string) :
  JS.endsWith s suffix = true <-> endsWithText s suffix.
Proof.
  unfold JS.endsWith, endsWithText. rewrite andb_true_iff, Nat.leb_le, String.eqb_eq.
  split.
  - intros [Hlen Hsub].
    exists (String.substring 0 (String.length s - String.length suffix) s).
    pose proof (substring_split (String.length s - String.length suffix) s) as Hsplit.
    replace (String.length s - (String.length s - String.length suffix))%nat
      with (String.length suffix) in Hsplit by lia.
    rewrite Hsub in Hsplit. apply Hsplit. lia.
  - intros [pre ->]. rewrite length_append. split; [lia|].
    replace (String.length pre + String.length suffix - String.length suffix)%nat
      with (String.length pre + 0)%nat by lia.
    rewrite substring_append_skip. apply substring_whole.
Qed.

Lemma indexOf_occursIn (s needle : string) :
  needle <> "" -> (JS.indexOf s needle <> -1 <-> occursIn needle s).
Proof.
  intros Hne. unfold JS.indexOf, occursIn.
  destruct (String.index 0 needle s) as [n|] eqn:Hidx.
  - split; [intros _ | lia]. exists n. apply (index_leftmost _ _ _ Hidx).
  - split; [congruence|]. intros [p Hp]. exfalso.
    exact (index_absent needle s p Hne Hidx Hp).
Qed.

Lemma indexOf_absent_eq (s needle : string) :
  needle <> "" -> ~ occursIn needle s -> JS.indexOf s needle = -1.
Proof.
  intros Hne Hno.
  destruct (Z.eq_dec (JS.indexOf s needle) (-1)) as [Heq|Hneq]; [exact Heq|].
  exfalso. apply Hno. now apply indexOf_occursIn.
Qed.

Lemma indexOf_absent_not_occursIn (s needle : string) :
  needle <> "" -> JS.indexOf s needle = -1 -> ~ occursIn needle s.
Proof.
  intros Hne Hidx Hocc. now apply (indexOf_occursIn s needle Hne) in Hocc.
Qed.

Lemma len_zero (s : string) : (JS.len s =? 0) = true <-> s = "".
Proof.
  unfold JS.len. rewrite Z.eqb_eq. destruct s; simpl; split; intros; try easy; lia.
Qed.

Lemma substr_one (line : string) : JS.substr line 1 = dropFirst line.
Proof.
  unfold JS.substr, JS.len. destruct line as [|c rest]; [reflexivity|].
  change (1 <? 0) with false. cbv iota.
  replace (Z.to_nat (Z.min 1 (Z.of_nat (String.length (String c rest))))) with 1%nat
    by (simpl String.length; lia).
  simpl. rewrite Nat.sub_0_r. apply substring_whole.
Qed.

Section ParserProperties.
Context {U : Utils}.

Lemma parseCosmeticFilter_unfold (line : string) :
  parseCosmeticFilter line
  = if rejected line then None
    else Some (newCosmeticFilter (parsedMask line) (parsedSelector line)
                                 (parsedHostnames line) (fastHash line)).
Proof.
  unfold parseCosmeticFilter, rejected, parsedMask, parsedSelector, parsedHostnames.
  destruct (parsedFields line) as [[m s] h]. reflexivity.
Qed.

Lemma rejected_spec (line : string) :
  rejected line = true <->
  parsedSelector line = "" \/
  endsWithText (parsedSelector line) "}" \/
  occursIn "##" (parsedSelector line) \/
  (getBit (parsedMask line) COSMETICS_MASK.unhide = true /\ parsedHostnames line = "").
Proof.
  unfold rejected.
  rewrite !orb_true_iff, andb_true_iff, !len_zero, endsWith_spec, negb_true_iff,
    Z.eqb_neq, (indexOf_occursIn _ "##") by discriminate.
  tauto.
Qed.

Lemma parseCosmeticFilter_rejected (line : string) :
  rejected line = true -> parseCosmeticFilter line = None.
Proof. intros Hrej. rewrite parseCosmeticFilter_unfold. now rewrite Hrej. Qed.

(** C5 as amended: [parseCosmeticFilter] returns the none result for every
    line whose parsed selector is empty, ends in ['}'], contains the text
    [##], or which is an unhide filter without hostnames; [#@#.ad] is such a
    line. *)
Theorem C5_parse_rejects_malformed :
  (forall line : string,
     parsedSelector line = "" \/
     endsWithText (parsedSelector line) "}" \/
     occursIn "##" (parsedSelector line) \/
     (getBit (parsedMask line) COSMETICS_MASK.unhide = true /\
      parsedHostnames line = "") ->
     parseCosmeticFilter line = None) /\
  parseCosmeticFilter "#@#.ad" = None.
Proof.
  split; [|reflexivity].
  intros line Hrej. apply parseCosmeticFilter_rejected, rejected_spec, Hrej.
Qed.

(** Every other line yields a filter carrying the parsed fields. *)
Lemma parseCosmeticFilter_Some (line : string) (f : CosmeticFilter) :
  parseCosmeticFilter line = Some f ->
  rejected line = false /\
  f = newCosmeticFilter (parsedMask line) (parsedSelector line)
                        (parsedHostnames line) (fastHash line).
Proof.
  rewrite parseCosmeticFilter_unfold.
  destruct (rejected line); [discriminate|]. intros [= <-]. now split.
Qed.

End ParserProperties.

Lemma C5_parse_rejects_malformed_witness :
  parseCosmeticFilter (U := sampleUtils) "example.com##" = None.
Proof.
  apply (proj1 (C5_parse_rejects_malformed (U := sampleUtils)) "example.com##").
  left. reflexivity.
Defined.

(** A further [#@#] in the selector is not looked for: on
    [a.com#@#.x#@#.y] the parser returns the unhide filter of the selector
    [.x#@#.y], so a selector holding a separator is not always dropped. *)
Lemma C5_unhide_separator_counterexample :
  ~ dropsMalformed (U := sampleUtils) "a.com#@#.x#@#.y".
Proof.
  unfold dropsMalformed. intros Hclaim.
  assert (Hsome : parseCosmeticFilter (U := sampleUtils) "a.com#@#.x#@#.y"
                  = Some (newCosmeticFilter 1 ".x#@#.y" "a.com" 15)) by reflexivity.
  rewrite Hclaim in Hsome; [discriminate|].
  right. right. left. right. exists 2%nat. reflexivity.
Qed.

(** ** The unhide invariant *)

Lemma split_nonempty (sep : ascii) (s : string) : split sep s <> [].
Proof.
  destruct s as [|c s]; simpl; [discriminate|].
  destruct (Ascii.eqb c sep); [discriminate|].
  destruct (split sep s); discriminate.
Qed.

Lemma insertByLength_nonempty (h : string) (sorted : list string) :
  insertByLength h sorted <> [].
Proof.
  destruct sorted as [|h' rest]; simpl; [discriminate|].
  destruct (JS.len h' >? JS.len h); discriminate.
Qed.

Lemma sortByLength_nonempty (hs : list string) : hs <> [] -> sortByLength hs <> [].
Proof.
  destruct hs as [|h hs]; [congruence|]. intros _. apply insertByLength_nonempty.
Qed.

Section InvariantProperties.
Context {U : Utils}.

(** A call changes neither the flags nor the hostnames text. *)
Lemma call_fields (m : Method) (f : CosmeticFilter) :
  mask (snd (call m f)) = mask f /\ hostnames (snd (call m f)) = hostnames f.
Proof.
  destruct m; simpl; try (split; reflexivity).
  unfold getHostnames. destruct (hostnamesArray f); split; reflexivity.
Qed.

Lemma after_fields (ms : list Method) (f : CosmeticFilter) :
  mask (after ms f) = mask f /\ hostnames (after ms f) = hostnames f.
Proof.
  unfold after. revert f. induction ms as [|m ms IH]; intros f; simpl.
  - split; reflexivity.
  - destruct (IH (snd (call m f))) as [Hm Hh].
    destruct (call_fields m f) as [Hm' Hh'].
    split; congruence.
Qed.

Lemma call_cacheFilled (m : Method) (f : CosmeticFilter) :
  hasHostnames f = true -> cacheFilled f -> cacheFilled (snd (call m f)).
Proof.
  intros Hhas Hinv. destruct m; simpl; try exact Hinv.
  unfold getHostnames. destruct (hostnamesArray f) as [arr|] eqn:Harr; simpl.
  - exact Hinv.
  - intros arr. simpl. rewrite Hhas. intros [= <-].
    apply sortByLength_nonempty, split_nonempty.
Qed.

Lemma after_cacheFilled (ms : list Method) (f : CosmeticFilter) :
  hasHostnames f = true -> cacheFilled f -> cacheFilled (after ms f).
Proof.
  unfold after. revert f. induction ms as [|m ms IH]; intros f Hhas Hinv; simpl.
  - exact Hinv.
  - apply IH; [| now apply call_cacheFilled].
    unfold hasHostnames. rewrite (proj2 (call_fields m f)). exact Hhas.
Qed.

Lemma getHostnames_nonempty (f : CosmeticFilter) :
  hasHostnames f = true -> cacheFilled f -> fst (getHostnames f) <> [].
Proof.
  intros Hhas Hinv. unfold getHostnames.
  destruct (hostnamesArray f) as [arr|] eqn:Harr; simpl.
  - now apply Hinv.
  - rewrite Hhas. apply sortByLength_nonempty, split_nonempty.
Qed.

(** C8: a filter returned by [parseCosmeticFilter] with the unhide flag set
    has a non-empty hostnames text, and after any sequence of method calls
    its flags and hostnames text are the same, so the flag is still set, the
    hostnames are still there, and [getHostnames] returns a non-empty
    array. *)
Theorem C8_unhide_keeps_hostnames
    (line : string) (f : CosmeticFilter) (ms : list Method) :
  parseCosmeticFilter line = Some f ->
  isUnhide f = true ->
  hostnames f <> "" /\
  mask (after ms f) = mask f /\
  hostnames (after ms f) = hostnames f /\
  isUnhide (after ms f) = true /\
  hasHostnames (after ms f) = true /\
  fst (getHostnames (after ms f)) <> [].
Proof.
  intros Hparse Hunhide.
  destruct (parseCosmeticFilter_Some line f Hparse) as [Hrej Hf].
  assert (Hhost : hostnames f <> "").
  { intros Hempty. subst f. unfold isUnhide in Hunhide. simpl in Hunhide, Hempty.
    assert (Hr : rejected line = true); [|congruence].
    apply rejected_spec. right. right. right. now split. }
  assert (Hhas : hasHostnames f = true).
  { unfold hasHostnames. apply negb_true_iff.
    destruct (JS.len (hostnames f) =? 0) eqn:Hlen; [|reflexivity].
    apply len_zero in Hlen. contradiction. }
  destruct (after_fields ms f) as [Hm Hh].
  split; [exact Hhost|].
  split; [exact Hm|]. split; [exact Hh|].
  assert (Hhas' : hasHostnames (after ms f) = true)
    by (unfold hasHostnames; rewrite Hh; exact Hhas).
  split; [unfold isUnhide; rewrite Hm; exact Hunhide|].
  split; [exact Hhas'|].
  apply getHostnames_nonempty; [exact Hhas'|].
  apply after_cacheFilled; [exact Hhas|].
  subst f. intros arr. discriminate.
Qed.

(** C10 as amended: a line without ['#'] whose first character is not ['@']
    and whose tail (the line without its first character) is not empty, does
    not end with ['}'], contains no [##] and does not start with [script:]
    parses to a filter whose selector is that tail, with empty hostnames and
    no flag set. *)
Theorem C10_separator_free_line_parses (line : string) :
  ~ occursIn "#" line ->
  String.get 0 line <> Some "@"%char ->
  dropFirst line <> "" ->
  ~ endsWithText (dropFirst line) "}" ->
  ~ occursIn "##" (dropFirst line) ->
  ~ startsWith (dropFirst line) "script:" ->
  exists f, parseCosmeticFilter line = Some f /\
            selector f = dropFirst line /\ hostnames f = "" /\ mask f = 0.
Proof.
  intros Hsharp Hat Hne Hbrace Hsep Hscript.
  assert (Hidx : JS.indexOf line "#" = -1)
    by (apply indexOf_absent_eq; [discriminate | exact Hsharp]).
  assert (Hunhide : JS.charIs line 0 "@"%char = false).
  { unfold JS.charIs, JS.charAt. simpl. change (Z.to_nat 0) with 0%nat.
    destruct (String.get 0 line) as [c|]; [|reflexivity].
    destruct (Ascii.eqb_spec c "@"%char) as [->|]; [congruence | reflexivity]. }
  assert (Hpre : fastStartsWith (dropFirst line) "script:" = false).
  { unfold fastStartsWith.
    destruct (String.prefix "script:" (dropFirst line)) eqn:Hp; [|reflexivity].
    apply prefix_startsWith in Hp. contradiction. }
  assert (Hfields : parsedFields line = (0, dropFirst line, "")).
  { unfold parsedFields. rewrite Hidx. cbv zeta.
    change (-1 + 1) with 0. rewrite Hunhide.
    change (0 + 1) with 1. rewrite substr_one, Hpre. reflexivity. }
  assert (Hrej : rejected line = false).
  { destruct (rejected line) eqn:Hr; [|reflexivity].
    apply rejected_spec in Hr.
    unfold parsedSelector, parsedMask, parsedHostnames in Hr.
    rewrite Hfields in Hr. simpl in Hr.
    destruct Hr as [?|[?|[?|[? _]]]]; [contradiction.. | discriminate]. }
  rewrite parseCosmeticFilter_unfold, Hrej.
  unfold parsedSelector, parsedMask, parsedHostnames. rewrite Hfields.
  eexists. split; [reflexivity|]. repeat split.
Qed.

End InvariantProperties.

Lemma C8_unhide_keeps_hostnames_witness :
  fst (getHostnames
         (after (U := sampleUtils) [GetHostnames; ToString; GetTokens]
            (newCosmeticFilter 1 ".ad" "foo.com" 13))) <> [].
Proof.
  assert (Hparse : parseCosmeticFilter (U := sampleUtils) "foo.com#@#.ad"
                   = Some (newCosmeticFilter 1 ".ad" "foo.com" 13)) by reflexivity.
  assert (Hunhide : isUnhide (newCosmeticFilter 1 ".ad" "foo.com" 13) = true)
    by reflexivity.
  exact (proj2 (proj2 (proj2 (proj2 (proj2
    (C8_unhide_keeps_hostnames (U := sampleUtils) "foo.com#@#.ad"
       (newCosmeticFilter 1 ".ad" "foo.com" 13)
       [GetHostnames; ToString; GetTokens] Hparse Hunhide)))))).
Defined.

Lemma C10_separator_free_line_parses_witness :
  exists f, parseCosmeticFilter (U := sampleUtils) "x.banner" = Some f /\
            selector f = ".banner" /\ hostnames f = "" /\ mask f = 0.
Proof.
  apply (C10_separator_free_line_parses (U := sampleUtils) "x.banner").
  - apply indexOf_absent_not_occursIn; [discriminate | reflexivity].
  - discriminate.
  - discriminate.
  - intros Hends%endsWith_spec. discriminate.
  - apply indexOf_absent_not_occursIn; [discriminate | reflexivity].
  - intros Hst%prefix_startsWith. discriminate.
Defined.

(** The statement without the [script:] condition fails on
    [xscript:inject(foo.js)]: the parser takes the script branch, returns the
    selector [foo.js] and sets the scriptInject flag. *)
Lemma C10_script_prefix_counterexample :
  ~ parsesToTail (U := sampleUtils) "xscript:inject(foo.js)".
Proof.
  unfold parsesToTail. intros Hclaim.
  destruct Hclaim as (f & Hparse & Hsel & _).
  - apply indexOf_absent_not_occursIn; [discriminate | reflexivity].
  - discriminate.
  - discriminate.
  - intros Hends%endsWith_spec. discriminate.
  - apply indexOf_absent_not_occursIn; [discriminate | reflexivity].
  - vm_compute in Hparse. injection Hparse as <-. discriminate.
Qed.

(** ** The selector tokenizer *)

Lemma append_assoc (a b c : string) : (a +:+ b) +:+ c = a +:+ (b +:+ c).
Proof.
  induction a as [|x a IH]; [reflexivity|].
  change (String x ((a +:+ b) +:+ c) = String x (a +:+ (b +:+ c))).
  now rewrite IH.
Qed.

Lemma append_empty_r (s : string) : s +:+ "" = s.
Proof.
  induction s as [|x s IH]; [reflexivity|].
  change (String x (s +:+ "") = String x s). now rewrite IH.
Qed.

Lemma get_append_here (a b : string) (c : ascii) :
  String.get (String.length a) (a +:+ String c b) = Some c.
Proof. induction a as [|x a IH]; simpl; [reflexivity | exact IH]. Qed.

Lemma length_substring_take (n : nat) (s : string) :
  (n <= String.length s)%nat -> String.length (String.substring 0 n s) = n.
Proof.
  revert n. induction s as [|c s IH]; intros [|n] Hn; simpl in *; try lia.
  rewrite IH; lia.
Qed.

Lemma slice_middle (pre mid post : string) :
  JS.slice (pre +:+ mid +:+ post) (String.length pre)
           (String.length pre + String.length mid) = mid.
Proof.
  unfold JS.slice.
  replace (String.length pre + String.length mid - String.length pre)%nat
    with (String.length mid) by lia.
  rewrite <- (Nat.add_0_r (String.length pre)) at 1.
  rewrite substring_append_skip. apply substring_append_take.
Qed.

Lemma code_open_bracket (c : ascii) :
  (nat_of_ascii c =? 91)%nat = Ascii.eqb c "["%char.
Proof.
  destruct (Ascii.eqb_spec c "["%char) as [->|Hne]; [reflexivity|].
  apply Nat.eqb_neq. intros Hcode. apply Hne.
  rewrite <- (ascii_nat_embedding c), Hcode. reflexivity.
Qed.

Lemma code_close_bracket (c : ascii) :
  (nat_of_ascii c =? 93)%nat = Ascii.eqb c "]"%char.
Proof.
  destruct (Ascii.eqb_spec c "]"%char) as [->|Hne]; [reflexivity|].
  apply Nat.eqb_neq. intros Hcode. apply Hne.
  rewrite <- (ascii_nat_embedding c), Hcode. reflexivity.
Qed.

Lemma findSepIndex_none (sel : string) (n : nat) :
  (forall i, (i < n)%nat -> combinatorAt sel i = false) -> findSepIndex sel n = 0%nat.
Proof.
  induction n as [|n IH]; intros Hnone; simpl; [reflexivity|].
  fold (combinatorAt sel n). rewrite (Hnone n) by lia.
  apply IH. intros i Hi. apply Hnone. lia.
Qed.

Lemma findSepIndex_last (sel : string) (n i : nat) :
  (i < n)%nat -> combinatorAt sel i = true ->
  combinatorAt sel (findSepIndex sel n) = true /\
  (i <= findSepIndex sel n)%nat /\ (findSepIndex sel n < n)%nat.
Proof.
  induction n as [|n IH]; intros Hi Hcomb; [lia|]. simpl.
  fold (combinatorAt sel n).
  destruct (combinatorAt sel n) eqn:Hn.
  - repeat split; [exact Hn | lia | lia].
  - assert (Hlt : (i < n)%nat).
    { destruct (Nat.eq_dec i n) as [->|]; [congruence | lia]. }
    destruct (IH Hlt Hcomb) as (H1 & H2 & H3). repeat split; [exact H1 | lia | lia].
Qed.

Lemma combinatorAt_in_range (sel : string) (i : nat) :
  combinatorAt sel i = true -> (i < String.length sel)%nat.
Proof.
  unfold combinatorAt, JS.charCodeAt. revert i.
  induction sel as [|c sel IH]; intros [|i]; simpl; try discriminate; try lia.
  intros Hc. specialize (IH i Hc). lia.
Qed.

Section TokenizerProperties.
Context {U : Utils}.

Lemma scanLoop_scanSuffix (sel suffix : string) :
  forall (pre : string) (st : Scan),
    sel = pre +:+ suffix ->
    scanLoop sel (String.length suffix) (String.length pre) st
    = scanSuffix sel suffix (String.length pre) st.
Proof.
  induction suffix as [|c suffix IH]; intros pre st Hsel; simpl; [reflexivity|].
  assert (Hstep : scanStep sel (String.length pre) st
                  = scanCode sel (nat_of_ascii c) (String.length pre) st).
  { unfold scanStep, JS.charCodeAt. rewrite Hsel at 1.
    now rewrite get_append_here. }
  rewrite Hstep.
  assert (Hsel' : sel = (pre +:+ String c "") +:+ suffix)
    by (rewrite Hsel, append_assoc; reflexivity).
  specialize (IH (pre +:+ String c "")
                 (scanCode sel (nat_of_ascii c) (String.length pre) st) Hsel').
  rewrite length_append in IH. cbn [String.length] in IH.
  replace (String.length pre + 1)%nat with (S (String.length pre)) in IH by lia.
  exact IH.
Qed.

Lemma scanSuffix_append (sel a b : string) :
  forall (i : nat) (st : Scan),
    scanSuffix sel (a +:+ b) i st
    = scanSuffix sel b (i + String.length a) (scanSuffix sel a i st).
Proof.
  induction a as [|c a IH]; intros i st; simpl.
  - now rewrite Nat.add_0_r.
  - rewrite IH. now replace (S i + String.length a)%nat with (i + S (String.length a))%nat by lia.
Qed.

Lemma scanCode_plain (sel : string) (c : ascii) (i : nat) (st : Scan) :
  isBracket c = false -> scanCode sel (nat_of_ascii c) i st = st.
Proof.
  unfold isBracket, scanCode. rewrite code_open_bracket, code_close_bracket.
  intros [-> ->]%orb_false_iff. reflexivity.
Qed.

Lemma scanCode_open (sel : string) (i : nat) (st : Scan) :
  scanCode sel 91 i st
  = {| inside := inside st + 1;
       start := start st;
       tokens := if (inside st =? 0) && (start st <? i)%nat
                 then tokens st ++ tokenizeCSS (JS.slice sel (start st) i)
                 else tokens st |}.
Proof. reflexivity. Qed.

Lemma scanCode_close (sel : string) (i : nat) (st : Scan) :
  scanCode sel 93 i st
  = {| inside := inside st - 1; start := (i + 1)%nat; tokens := tokens st |}.
Proof. reflexivity. Qed.

Lemma scanSuffix_plain (sel plain : string) :
  forall (i : nat) (st : Scan),
    bracketFree plain = true -> scanSuffix sel plain i st = st.
Proof.
  induction plain as [|c plain IH]; intros i st Hfree; simpl in *; [reflexivity|].
  apply andb_true_iff in Hfree as [Hc Hrest]. apply negb_true_iff in Hc.
  rewrite scanCode_plain by exact Hc. now apply IH.
Qed.

(** Inside a bracketed span nothing is pushed and the depth comes back. *)
Lemma scanSuffix_balanced_deep (sel inner : string) :
  Balanced inner ->
  forall (i : nat) (st : Scan),
    1 <= inside st ->
    exists s', scanSuffix sel inner i st
               = {| inside := inside st; start := s'; tokens := tokens st |}.
Proof.
  induction 1 as [|c s Hc _ IH|inner s _ IHinner _ IHs]; intros i st Hdeep.
  - exists (start st). now destruct st.
  - simpl. rewrite scanCode_plain by exact Hc. now apply IH.
  - change ("[" +:+ inner +:+ "]" +:+ s) with (String "["%char (inner +:+ String "]"%char s)).
    cbn [scanSuffix]. rewrite scanSuffix_append. cbn [scanSuffix].
    change (nat_of_ascii "[") with 91%nat. change (nat_of_ascii "]") with 93%nat.
    rewrite scanCode_open.
    replace (inside st =? 0) with false by (symmetry; apply Z.eqb_neq; lia).
    cbn [andb].
    destruct (IHinner (S i) {| inside := inside st + 1; start := start st; tokens := tokens st |})
      as [s1 Hs1]; [cbn; lia|].
    rewrite Hs1, scanCode_close. cbn [inside start tokens].
    destruct (IHs (S (S i + String.length inner))
                {| inside := inside st + 1 - 1;
                   start := (S i + String.length inner + 1)%nat;
                   tokens := tokens st |}) as [s2 Hs2]; [cbn; lia|].
    rewrite Hs2. cbn [inside tokens]. exists s2. f_equal. lia.
Qed.

(** From depth 0, with [start] at the beginning of a well-bracketed text,
    the loop and the final push produce the tokens of its outer parts. *)
Lemma scan_segments (body : string) (segs : list string) :
  TopSegments body segs ->
  forall (pre : string) (toks : list Z),
    finalPush (pre +:+ body)
      (scanSuffix (pre +:+ body) body (String.length pre)
         {| inside := 0; start := String.length pre; tokens := toks |})
    = (toks ++ List.concat (map tokenizeCSS segs))%list.
Proof.
  induction 1 as [plain Hfree|plain inner rest segs Hfree Hinner _ IH]; intros pre toks.
  - rewrite scanSuffix_plain by exact Hfree.
    unfold finalPush, keepPart. cbn [inside start tokens]. rewrite length_append.
    destruct plain as [|c plain]; simpl String.eqb; cbv iota.
    + simpl String.length. rewrite Nat.add_0_r, Nat.ltb_irrefl. simpl.
      now rewrite app_nil_r.
    + replace (String.length pre <? String.length pre + String.length (String c plain))%nat
        with true by (symmetry; apply Nat.ltb_lt; simpl; lia).
      simpl andb. cbv iota.
      pose proof (slice_middle pre (String c plain) "") as Hslice.
      rewrite append_empty_r in Hslice.
      rewrite Hslice. simpl. now rewrite app_nil_r.
  - rewrite (scanSuffix_append _ plain), (scanSuffix_plain _ plain _ _ Hfree).
    change ("[" +:+ inner +:+ "]" +:+ rest)
      with (String "["%char (inner +:+ String "]"%char rest)).
    cbn [scanSuffix]. rewrite scanSuffix_append. cbn [scanSuffix].
    change (nat_of_ascii "[") with 91%nat. change (nat_of_ascii "]") with 93%nat.
    rewrite scanCode_open. cbn [inside start tokens].
    change (0 =? 0) with true. cbn [andb]. change (0 + 1) with 1.
    set (i1 := (String.length pre + String.length plain)%nat).
    set (toks' := if (String.length pre <? i1)%nat
                  then (toks ++ tokenizeCSS (JS.slice
                         (pre +:+ plain +:+ String "["%char (inner +:+ String "]"%char rest))
                         (String.length pre) i1))%list
                  else toks).
    destruct (scanSuffix_balanced_deep
                (pre +:+ plain +:+ String "["%char (inner +:+ String "]"%char rest))
                inner Hinner (S i1)
                {| inside := 1; start := String.length pre; tokens := toks' |})
      as [s1 Hs1]; [cbn; lia|].
    rewrite Hs1, scanCode_close. cbn [inside start tokens].
    change (1 - 1) with 0.
    specialize (IH (pre +:+ plain +:+ "[" +:+ inner +:+ "]") toks').
    assert (Hsel : (pre +:+ plain +:+ "[" +:+ inner +:+ "]") +:+ rest
                   = pre +:+ plain +:+ String "["%char (inner +:+ String "]"%char rest)).
    { rewrite !append_assoc. reflexivity. }
    assert (Hlen : String.length (pre +:+ plain +:+ "[" +:+ inner +:+ "]")
                   = S (S i1 + String.length inner)).
    { rewrite !length_append. simpl. unfold i1. lia. }
    rewrite Hsel, Hlen in IH.
    replace (S i1 + String.length inner + 1)%nat with (S (S i1 + String.length inner)) by lia.
    rewrite IH. unfold toks', keepPart, i1.
    destruct plain as [|c plain]; simpl String.eqb; cbv iota.
    + simpl String.length. rewrite Nat.add_0_r, Nat.ltb_irrefl. reflexivity.
    + replace (String.length pre <? String.length pre + String.length (String c plain))%nat
        with true by (symmetry; apply Nat.ltb_lt; simpl; lia).
      rewrite slice_middle. simpl. now rewrite <- app_assoc.
Qed.

Lemma tokensFrom_segments (sel : string) (sepIndex : nat) (segs : list string) :
  (sepIndex <= String.length sel)%nat ->
  TopSegments (JS.slice sel sepIndex (String.length sel)) segs ->
  tokensFrom sel sepIndex = List.concat (map tokenizeCSS segs).
Proof.
  intros Hle Hsegs. unfold tokensFrom.
  pose proof (substring_split sepIndex sel Hle) as Hsplit.
  fold (JS.slice sel sepIndex (String.length sel)) in Hsplit.
  set (pre := String.substring 0 sepIndex sel) in *.
  set (body := JS.slice sel sepIndex (String.length sel)) in *.
  assert (Hpre : String.length pre = sepIndex) by (apply length_substring_take; exact Hle).
  assert (Hbody : String.length body = (String.length sel - sepIndex)%nat).
  { pose proof (f_equal String.length Hsplit) as Hl.
    rewrite length_append in Hl. lia. }
  clearbody pre body. rewrite <- Hbody, <- Hpre. clear Hle Hbody Hpre. subst sel.
  rewrite (scanLoop_scanSuffix (pre +:+ body) body pre _ eq_refl).
  apply (scan_segments body segs Hsegs pre []).
Qed.

End TokenizerProperties.

Lemma findSepIndex_le (sel : string) (n : nat) : (findSepIndex sel n <= n)%nat.
Proof.
  induction n as [|n IH]; simpl; [lia|].
  destruct (isCombinatorCode (JS.charCodeAt sel n)); lia.
Qed.

Section TokenizerClaims.
Context {U : Utils}.

(** C6 as amended: for a filter that is not a script filter, the split point
    is the index of the last combinator character (['>'], ['+'], ['~']) of
    the selector, wherever it stands, and 0 when there is none; when the text
    from the split point to the end is well-bracketed, the tokens are those
    of its non-empty parts outside bracketed spans, concatenated from left to
    right. The selector [.a[b=c].d] yields the tokens of [.a] followed by
    those of [.d]. *)
Theorem C6_tokens_after_last_combinator (f : CosmeticFilter) :
  isScriptInject f = false -> isScriptBlock f = false ->
  let sel := selector f in
  let sep := lastCombinatorIndex sel in
  ((forall i, combinatorAt sel i = false) -> sep = 0%nat) /\
  (forall i, combinatorAt sel i = true ->
             combinatorAt sel sep = true /\ (i <= sep)%nat) /\
  (forall segs,
     TopSegments (JS.slice sel sep (String.length sel)) segs ->
     getTokensSelector f = List.concat (map tokenizeCSS segs)) /\
  (sel = ".a[b=c].d" ->
   getTokensSelector f = (tokenizeCSS ".a" ++ tokenizeCSS ".d")%list).
Proof.
  intros Hinject Hblock sel sep.
  assert (Hcode : getTokensSelector f = tokensFrom sel sep).
  { unfold getTokensSelector. now rewrite Hinject, Hblock. }
  split; [|split; [|split]].
  - intros Hnone. apply findSepIndex_none. intros i _. apply Hnone.
  - intros i Hcomb.
    destruct (findSepIndex_last sel (String.length sel) i
                (combinatorAt_in_range sel i Hcomb) Hcomb) as (Hc & Hle & _).
    split; assumption.
  - intros segs Hsegs. rewrite Hcode.
    apply tokensFrom_segments; [apply findSepIndex_le | exact Hsegs].
  - intros Hsel. rewrite Hcode. unfold sep. rewrite Hsel. reflexivity.
Qed.

End TokenizerClaims.

Lemma C6_tokens_after_last_combinator_witness :
  getTokensSelector (U := sampleUtils) (newCosmeticFilter 0 "div > .a[b=c].d" "" 16)
  = (tokenizeCSS (Utils := sampleUtils) "> .a"
     ++ tokenizeCSS (Utils := sampleUtils) ".d")%list.
Proof.
  destruct (C6_tokens_after_last_combinator (U := sampleUtils)
              (newCosmeticFilter 0 "div > .a[b=c].d" "" 16) eq_refl eq_refl)
    as (_ & _ & Hsegs & _).
  apply (Hsegs ["> .a"; ".d"]).
  refine (TopSpan "> .a" "b=c" ".d" [".d"] eq_refl _ (TopLast ".d" eq_refl)).
  repeat (apply BalancedChar; [reflexivity|]). apply BalancedNil.
Defined.

(** With a combinator character inside the brackets the split point moves
    into the bracketed span: [.a[b~=c].d] yields no token at all, where a
    split at the top-level combinator only would yield those of [.a] and
    [.d]. *)
Lemma C6_bracketed_combinator_counterexample :
  ~ splitsAtTopLevelCombinator (U := sampleUtils) exampleAttributeFilter.
Proof.
  intros Hclaim. specialize (Hclaim eq_refl eq_refl).
  vm_compute in Hclaim. discriminate.
Qed.

(** ** The model on the documented examples *)

Section Examples.
Context {U : Utils}.

Example parse_hide :
  parseCosmeticFilter "##.ad"
  = Some (newCosmeticFilter 0 ".ad" "" (fastHash "##.ad")).
Proof. reflexivity. Qed.

Example parse_unhide :
  parseCosmeticFilter "foo.com#@#.ad"
  = Some (newCosmeticFilter 1 ".ad" "foo.com" (fastHash "foo.com#@#.ad")).
Proof. reflexivity. Qed.

Example parse_script_inject :
  parseCosmeticFilter "example.com##script:inject(foo.js)"
  = Some (newCosmeticFilter 2 "foo.js" "example.com"
            (fastHash "example.com##script:inject(foo.js)")).
Proof. reflexivity. Qed.

Example parse_script_contains_regex :
  parseCosmeticFilter "a.com##script:contains(/foo/)"
  = Some (newCosmeticFilter 4 "foo" "a.com" (fastHash "a.com##script:contains(/foo/)")).
Proof. reflexivity. Qed.

Example parse_script_without_separator :
  parseCosmeticFilter "xscript:inject(foo.js)"
  = Some (newCosmeticFilter 2 "foo.js" "" (fastHash "xscript:inject(foo.js)")).
Proof. reflexivity. Qed.

Example tokens_bracketed_combinator :
  getTokensSelector exampleAttributeFilter = [].
Proof. reflexivity. Qed.

Example tokens_script_filter :
  getTokensSelector (newCosmeticFilter 2 "foo.js" "example.com" 0) = [].
Proof. reflexivity. Qed.

Example hostnames_longest_first :
  fst (getHostnames (newCosmeticFilter 0 ".ad" "a.com,bbb.com,c.com,dddd.com" 0))
  = ["dddd.com"; "bbb.com"; "a.com"; "c.com"].
Proof. reflexivity. Qed.

Example toString_unhide :
  toString (newCosmeticFilter 1 ".ad" "foo.com" 0) = "foo.com#@#.ad".
Proof. reflexivity. Qed.

Example anchored_later_occurrence_ignored :
  isAnchoredByHostname "foo" "xfoo.foo" = false.
Proof. reflexivity. Qed.

Example remainder_without_occurrence :
  getUrlAfterHostname "0123456789/ads" "example.com" = "/ads".
Proof. reflexivity. Qed.

End Examples.

(** * Further properties of the matcher *)

(** ** Occurrences *)

Lemma occursAt_compose (pre needle post : string) :
  occursAt needle (pre +:+ needle +:+ post) (String.length pre).
Proof.
  unfold occursAt.
  rewrite <- (Nat.add_0_r (String.length pre)), substring_append_skip.
  apply substring_append_take.
Qed.

Lemma substring_take_add (s : string) (a b : nat) :
  (a <= String.length s)%nat ->
  String.substring 0 (a + b) s = String.substring 0 a s +:+ String.substring a b s.
Proof.
  revert a. induction s as [|c s IH]; intros [|a] Ha; simpl in *; try lia.
  - destruct b; reflexivity.
  - reflexivity.
  - transitivity (String c (String.substring 0 a s +:+ String.substring a b s));
      [f_equal; apply IH; lia | reflexivity].
Qed.

Lemma occursAt_decompose (needle s : string) (p : nat) :
  needle <> "" -> occursAt needle s p ->
  exists pre post, s = pre +:+ needle +:+ post /\ String.length pre = p.
Proof.
  intros Hne Hocc.
  destruct (occursAt_bound needle s p Hocc) as [Hb|?]; [|contradiction].
  pose proof (substring_split p s ltac:(lia)) as Hsplit.
  set (pre := String.substring 0 p s) in *.
  set (tail := String.substring p (String.length s - p) s) in *.
  assert (Hpre : String.length pre = p) by (apply length_substring_take; lia).
  assert (Htail : String.length tail = (String.length s - p)%nat).
  { pose proof (f_equal String.length Hsplit) as Hl. rewrite length_append in Hl. lia. }
  assert (Hn : String.substring 0 (String.length needle) tail = needle).
  { unfold occursAt in Hocc. rewrite Hsplit in Hocc.
    rewrite <- Hpre in Hocc at 1.
    rewrite <- (Nat.add_0_r (String.length pre)) in Hocc.
    now rewrite substring_append_skip in Hocc. }
  exists pre, (String.substring (String.length needle)
                 (String.length tail - String.length needle) tail).
  split; [|exact Hpre].
  rewrite Hsplit at 1. f_equal.
  rewrite <- Hn at 1. apply substring_split. lia.
Qed.

Lemma occursIn_empty (s : string) : occursIn "" s.
Proof. exists 0%nat. unfold occursAt. now destruct s. Qed.

Lemma occursIn_trans (a b c : string) :
  occursIn a b -> occursIn b c -> occursIn a c.
Proof.
  intros [p Hp] [q Hq].
  destruct a as [|x a]; [apply occursIn_empty|].
  destruct b as [|y b].
  { destruct (occursAt_bound _ _ _ Hp) as [Hb|Hb]; [simpl in Hb; lia | discriminate]. }
  destruct (occursAt_decompose (String x a) _ _ ltac:(discriminate) Hp) as (p1 & q1 & Hb & _).
  destruct (occursAt_decompose (String y b) _ _ ltac:(discriminate) Hq) as (p2 & q2 & Hc & _).
  exists (String.length (p2 +:+ p1)).
  rewrite Hc, Hb.
  replace (p2 +:+ (p1 +:+ String x a +:+ q1) +:+ q2)
    with ((p2 +:+ p1) +:+ String x a +:+ (q1 +:+ q2))
    by (now rewrite !append_assoc).
  apply occursAt_compose.
Qed.

Lemma occursIn_leftmost (needle s : string) :
  occursIn needle s -> exists p, leftmostAt needle s p.
Proof.
  intros [q Hq].
  destruct (String.index 0 needle s) as [n|] eqn:Hidx.
  - exists n. now apply index_leftmost.
  - destruct needle as [|c needle].
    + destruct s; simpl in Hidx; discriminate.
    + exfalso. exact (index_absent (String c needle) s q ltac:(discriminate) Hidx Hq).
Qed.

Lemma leftmostAt_remainder (h u : string) (p : nat) :
  leftmostAt h u p -> exists rest, remainderAfter u h rest.
Proof.
  intros Hleft. destruct h as [|c h].
  - exists u. exists "". split; [reflexivity|].
    split; [unfold occursAt; now destruct u | intros q Hq; simpl in Hq; lia].
  - destruct (occursAt_decompose (String c h) _ _ ltac:(discriminate) (proj1 Hleft))
      as (pre & post & Hu & Hlen).
    exists post, pre. split; [exact Hu | now rewrite Hlen].
Qed.

Lemma substringFrom_suffix (s : string) (a : Z) :
  suffixOf (JS.substringFrom s a) s.
Proof.
  unfold suffixOf, JS.substringFrom, JS.substring, JS.clamp, JS.len.
  set (n := Z.to_nat (Z.max 0 (Z.min a (Z.of_nat (String.length s))))).
  replace (Z.to_nat (Z.max 0 (Z.min (Z.of_nat (String.length s))
                                    (Z.of_nat (String.length s)))))
    with (String.length s) by lia.
  assert (Hn : (n <= String.length s)%nat) by (unfold n; lia).
  rewrite Nat.min_l, Nat.max_r by lia.
  exists (String.substring 0 n s). now apply substring_split.
Qed.

Lemma suffix_startsWith_occursIn (u s p : string) :
  suffixOf s u -> startsWith s p -> occursIn p u.
Proof.
  intros [pre ->] [tail ->]. exists (String.length pre). apply occursAt_compose.
Qed.

Lemma indexOf_found_occursIn (s needle : string) :
  JS.indexOf s needle <> -1 -> occursIn needle s.
Proof.
  destruct needle as [|c needle]; [intros _; apply occursIn_empty|].
  apply indexOf_occursIn. discriminate.
Qed.

(** ** The hostname anchor on related hostnames *)

(** X1: a filter hostname anchors itself and every hostname that continues
    it after a dot ([example.] anchors [example.com], [www] anchors
    [www.site.org]). *)
Theorem anchored_exact_or_dotted_prefix (fh rest : string) :
  isAnchoredByHostname fh fh = true /\
  isAnchoredByHostname fh (fh +:+ "." +:+ rest) = true.
Proof.
  split; apply isAnchoredByHostname_spec.
  - destruct fh as [|c fh]; [now left | right]. split; [lia|].
    exists 0%nat. split.
    + split; [apply substring_whole | intros q Hq; lia].
    + cbn [boundaryOk]. now rewrite String.eqb_refl.
  - destruct fh as [|c fh]; [now left | right].
    split; [rewrite length_append; lia|].
    exists 0%nat. split.
    + split; [apply substring_append_take | intros q Hq; lia].
    + cbn [boundaryOk]. unfold dotAt.
      change ("." +:+ rest) with (String "."%char rest).
      rewrite get_append_here. apply orb_true_r.
Qed.

(** X2: a filter hostname anchors a subdomain [sub.fh] of itself whenever
    its occurrence after the dot is the leftmost one in that hostname. *)
Theorem anchored_subdomain (fh sub : string) :
  leftmostAt fh (sub +:+ "." +:+ fh) (S (String.length sub)) ->
  isAnchoredByHostname fh (sub +:+ "." +:+ fh) = true.
Proof.
  intros Hleft. apply isAnchoredByHostname_spec.
  destruct fh as [|c fh]; [now left | right].
  split; [rewrite !length_append; simpl; lia|].
  exists (S (String.length sub)). split; [exact Hleft|].
  cbn [boundaryOk]. unfold dotAt at 1.
  change ("." +:+ String c fh) with (String "."%char (String c fh)).
  rewrite get_append_here.
  replace (S (String.length sub) + String.length (String c fh)
           =? String.length (sub +:+ String "."%char (String c fh)))%nat with true.
  - reflexivity.
  - symmetry. apply Nat.eqb_eq. rewrite !length_append. simpl. lia.
Qed.

Lemma anchored_subdomain_witness :
  isAnchoredByHostname "example.com" ("ads" +:+ "." +:+ "example.com") = true.
Proof.
  apply (anchored_subdomain "example.com" "ads").
  apply indexOf_leftmost. reflexivity.
Defined.

(** X3: when the anchor accepts a filter hostname on a request whose URL
    contains the request hostname, the filter hostname occurs in the URL, so
    [getUrlAfterHostname] returns what follows its leftmost occurrence there
    (the [indexOf] in it never is [-1]). *)
Theorem anchored_remainder_exists (fh h u : string) :
  isAnchoredByHostname fh h = true ->
  occursIn h u ->
  occursIn fh u /\
  exists rest, remainderAfter u fh rest /\ getUrlAfterHostname u fh = rest.
Proof.
  intros Hanch Hhost.
  assert (Hocc : occursIn fh u).
  { apply isAnchoredByHostname_spec in Hanch as [->|[_ (p & [Hp _] & _)]].
    - apply occursIn_empty.
    - apply (occursIn_trans fh h u); [now exists p | exact Hhost]. }
  split; [exact Hocc|].
  destruct (occursIn_leftmost fh u Hocc) as [p Hleft].
  destruct (leftmostAt_remainder fh u p Hleft) as [rest Hrest].
  exists rest. split; [exact Hrest | now apply getUrlAfterHostname_remainder].
Qed.

Lemma anchored_remainder_exists_witness :
  occursIn "example.com" "https://ads.example.com/x.js" /\
  exists rest, remainderAfter "https://ads.example.com/x.js" "example.com" rest /\
               getUrlAfterHostname "https://ads.example.com/x.js" "example.com" = rest.
Proof.
  apply (anchored_remainder_exists "example.com" "ads.example.com"
           "https://ads.example.com/x.js").
  - reflexivity.
  - exists 8%nat. reflexivity.
Defined.

(** ** The pattern strategies *)

Section StrategyProperties.
Context {U : Utils}.

(** X4: a hostname-anchored filter of any shape (regex, right-anchored,
    fuzzy or plain) never matches a request whose hostname the anchor
    rejects, and such a call leaves the request untouched. *)
Theorem hostname_anchor_gates_every_shape (filter : NetworkFilter) (request : IRequest) :
  isHostnameAnchor filter = true ->
  isAnchoredByHostname (getHostname filter) (hostname request) = false ->
  checkPattern filter request = (false, request) /\
  matchNetworkFilter filter request = (false, request).
Proof.
  intros Ha Hno.
  assert (Hcp : checkPattern filter request = (false, request)).
  { unfold checkPattern, checkPatternHostnameAnchorRegexFilter,
      checkPatternHostnameRightAnchorFilter, checkPatternHostnameAnchorFuzzyFilter,
      checkPatternHostnameAnchorFilter.
    rewrite Ha, Hno.
    destruct (isRegex filter), (isRightAnchor filter), (isFuzzy filter); reflexivity. }
  split; [exact Hcp|].
  unfold matchNetworkFilter. rewrite Hcp. now destruct (checkOptions filter request).
Qed.

(** X5: a hostname-anchored, right-anchored, non-regex filter matches exactly
    when the anchor accepts the hostname and the URL after the filter
    hostname equals the pattern; a matched URL therefore ends with the
    pattern. *)
Theorem hostname_right_anchor_exact_remainder
    (filter : NetworkFilter) (request : IRequest) :
  isHostnameAnchor filter = true -> isRegex filter = false ->
  isRightAnchor filter = true ->
  (fst (checkPattern filter request) = true <->
   isAnchoredByHostname (getHostname filter) (hostname request) = true /\
   getUrlAfterHostname (url request) (getHostname filter) = getFilter filter) /\
  (fst (checkPattern filter request) = true ->
   endsWithText (url request) (getFilter filter)).
Proof.
  intros Ha Hr Hra.
  assert (Hiff : fst (checkPattern filter request) = true <->
    isAnchoredByHostname (getHostname filter) (hostname request) = true /\
    getUrlAfterHostname (url request) (getHostname filter) = getFilter filter).
  { unfold checkPattern, checkPatternHostnameRightAnchorFilter.
    rewrite Ha, Hr, Hra. cbn [fst].
    destruct (isAnchoredByHostname (getHostname filter) (hostname request)).
    - rewrite String.eqb_eq. split; [intros ->; now split | intros [_ ->]; reflexivity].
    - split; [discriminate | intros [Hfalse _]; discriminate]. }
  split; [exact Hiff|].
  intros Hm. apply Hiff in Hm as [_ Hrem]. rewrite <- Hrem.
  apply substringFrom_suffix.
Qed.

(** X6: without hostname anchor and regex, a left- and right-anchored filter
    matches exactly the URL equal to its pattern, a left-anchored one the
    URLs starting with it, a right-anchored one the URLs ending with it, and
    a filter with none of these flags (and not fuzzy) the URLs containing
    it. *)
Theorem literal_strategies (filter : NetworkFilter) (request : IRequest) :
  isHostnameAnchor filter = false -> isRegex filter = false ->
  (isLeftAnchor filter = true -> isRightAnchor filter = true ->
   (fst (checkPattern filter request) = true <-> url request = getFilter filter)) /\
  (isLeftAnchor filter = true -> isRightAnchor filter = false ->
   (fst (checkPattern filter request) = true <->
    startsWith (url request) (getFilter filter))) /\
  (isLeftAnchor filter = false -> isRightAnchor filter = true ->
   (fst (checkPattern filter request) = true <->
    endsWithText (url request) (getFilter filter))) /\
  (isLeftAnchor filter = false -> isRightAnchor filter = false ->
   isFuzzy filter = false ->
   (fst (checkPattern filter request) = true <->
    occursIn (getFilter filter) (url request))).
Proof.
  intros Ha Hr. unfold checkPattern. rewrite Ha, Hr.
  split; [|split; [|split]].
  - intros -> ->. cbn [andb fst]. unfold checkPatternLeftRightAnchorFilter.
    apply String.eqb_eq.
  - intros -> ->. cbn [andb fst]. unfold checkPatternLeftAnchorFilter, fastStartsWith.
    apply prefix_startsWith.
  - intros -> ->. cbn [andb fst]. unfold checkPatternRightAnchorFilter.
    apply endsWith_spec.
  - intros -> -> ->. cbn [andb fst]. unfold checkPatternPlainFilter.
    rewrite negb_true_iff, Z.eqb_neq. split; [apply indexOf_found_occursIn|].
    intros [p Hp] Hidx. unfold JS.indexOf in Hidx.
    destruct (String.index 0 (getFilter filter) (url request)) as [n|] eqn:Hi; [lia|].
    destruct (getFilter filter) as [|c pat] eqn:Hpat.
    + destruct (url request); simpl in Hi; discriminate.
    + exact (index_absent (String c pat) _ p ltac:(discriminate) Hi Hp).
Qed.

(** X7: a filter that is neither regex nor fuzzy never matches a URL that
    does not contain its literal pattern, whatever its anchors. *)
Theorem literal_match_needs_pattern (filter : NetworkFilter) (request : IRequest) :
  isRegex filter = false -> isFuzzy filter = false ->
  fst (matchNetworkFilter filter request) = true ->
  occursIn (getFilter filter) (url request).
Proof.
  intros Hr Hf Hm.
  assert (Hcp : fst (checkPattern filter request) = true).
  { unfold matchNetworkFilter in Hm.
    destruct (checkOptions filter request); [exact Hm | discriminate]. }
  clear Hm. unfold checkPattern in Hcp. rewrite Hr, Hf in Hcp.
  destruct (isHostnameAnchor filter).
  - assert (Hsuf : suffixOf (getUrlAfterHostname (url request) (getHostname filter))
                     (url request)) by apply substringFrom_suffix.
    destruct (isRightAnchor filter); cbn [fst] in Hcp.
    + unfold checkPatternHostnameRightAnchorFilter in Hcp.
      destruct (isAnchoredByHostname _ _); [|discriminate].
      apply String.eqb_eq in Hcp. rewrite Hcp.
      apply (suffix_startsWith_occursIn _ _ _ Hsuf).
      exists "". now rewrite append_empty_r.
    + unfold checkPatternHostnameAnchorFilter, fastStartsWith in Hcp.
      destruct (isAnchoredByHostname _ _); [|discriminate].
      apply prefix_startsWith in Hcp.
      exact (suffix_startsWith_occursIn _ _ _ Hsuf Hcp).
  - destruct (isLeftAnchor filter), (isRightAnchor filter); cbn [andb fst] in Hcp.
    + apply String.eqb_eq in Hcp. rewrite Hcp.
      exists 0%nat. apply substring_whole.
    + apply prefix_startsWith in Hcp. destruct Hcp as [tail ->].
      exists 0%nat. apply substring_append_take.
    + apply endsWith_spec in Hcp. destruct Hcp as [pre ->].
      exists (String.length pre).
      rewrite <- (append_empty_r (getFilter filter)) at 2. apply occursAt_compose.
    + unfold checkPatternPlainFilter in Hcp.
      apply negb_true_iff, Z.eqb_neq in Hcp. now apply indexOf_found_occursIn.
Qed.

End StrategyProperties.

Lemma hostname_right_anchor_exact_remainder_witness :
  fst (checkPattern (U := sampleUtils) exampleRightAnchorFilter exampleAdsEndRequest) = true /\
  endsWithText (url exampleAdsEndRequest) (getFilter exampleRightAnchorFilter).
Proof.
  destruct (hostname_right_anchor_exact_remainder (U := sampleUtils)
              exampleRightAnchorFilter exampleAdsEndRequest eq_refl eq_refl eq_refl)
    as [Hiff Hends].
  assert (Hm : fst (checkPattern (U := sampleUtils) exampleRightAnchorFilter
                      exampleAdsEndRequest) = true).
  { apply Hiff. split; reflexivity. }
  split; [exact Hm | exact (Hends Hm)].
Defined.

Lemma literal_strategies_witness :
  fst (checkPattern (U := sampleUtils) examplePlainFilter exampleAdsRequest) = true.
Proof.
  destruct (literal_strategies (U := sampleUtils) examplePlainFilter exampleAdsRequest
              eq_refl eq_refl) as (_ & _ & _ & Hplain).
  apply (Hplain eq_refl eq_refl eq_refl).
  exists 24%nat. reflexivity.
Defined.

Lemma literal_match_needs_pattern_witness :
  occursIn "/ads" "https://example.com/ads/banner.png".
Proof.
  apply (literal_match_needs_pattern (U := sampleUtils) exampleAdsFilter exampleAdsRequest);
    reflexivity.
Defined.

Lemma hostname_anchor_gates_every_shape_witness :
  matchNetworkFilter (U := sampleUtils) exampleRightAnchorFilter exampleOtherRequest
  = (false, exampleOtherRequest).
Proof.
  apply (hostname_anchor_gates_every_shape (U := sampleUtils)
           exampleRightAnchorFilter exampleOtherRequest); reflexivity.
Defined.

(** ** Options *)

Section OptionProperties.
Context {U : Utils}.

Lemma checkOptions_iff (filter : NetworkFilter) (request : IRequest) :
  checkOptions filter request = true <->
  isCptAllowed filter (cpt request) = true /\
  (sourceGD request = hostGD request -> firstParty filter = true) /\
  (sourceGD request <> hostGD request -> thirdParty filter = true) /\
  (hasOptDomains filter = true -> getOptDomains filter <> ∅ ->
   (sourceGD request ∈ getOptDomains filter) \/
   (sourceHostname request ∈ getOptDomains filter)) /\
  (hasOptNotDomains filter = true ->
   (sourceGD request ∉ getOptNotDomains filter) /\
   (sourceHostname request ∉ getOptNotDomains filter)).
Proof.
  assert (Hsize : forall D : gset string,
            (0 <? Z.of_nat (size D)) = true <-> D <> ∅).
  { intros D. rewrite Z.ltb_lt. split.
    - intros Hpos ->. rewrite size_empty in Hpos. lia.
    - intros Hne. assert (size D <> 0%nat); [|lia].
      apply size_non_empty_iff. intros He. apply Hne. now apply leibniz_equiv. }
  unfold checkOptions. cbv zeta.
  set (c1 := negb (isCptAllowed filter (cpt request))).
  set (c2 := negb (firstParty filter) && String.eqb (sourceGD request) (hostGD request)).
  set (c3 := negb (thirdParty filter)
             && negb (String.eqb (sourceGD request) (hostGD request))).
  set (c4 := hasOptDomains filter &&
             ((0 <? Z.of_nat (size (getOptDomains filter))) &&
              negb (bool_decide (sourceGD request ∈ getOptDomains filter) ||
                    bool_decide (sourceHostname request ∈ getOptDomains filter)))).
  set (c5 := hasOptNotDomains filter &&
             ((0 <? Z.of_nat (size (getOptNotDomains filter))) &&
              (bool_decide (sourceGD request ∈ getOptNotDomains filter) ||
               bool_decide (sourceHostname request ∈ getOptNotDomains filter)))).
  assert (H1 : c1 = false <-> isCptAllowed filter (cpt request) = true).
  { unfold c1. now rewrite negb_false_iff. }
  assert (H2 : c2 = false <->
               (sourceGD request = hostGD request -> firstParty filter = true)).
  { unfold c2. destruct (String.eqb_spec (sourceGD request) (hostGD request));
      destruct (firstParty filter); cbn; intuition congruence. }
  assert (H3 : c3 = false <->
               (sourceGD request <> hostGD request -> thirdParty filter = true)).
  { unfold c3. destruct (String.eqb_spec (sourceGD request) (hostGD request));
      destruct (thirdParty filter); cbn; intuition congruence. }
  assert (H4 : c4 = false <->
               (hasOptDomains filter = true -> getOptDomains filter <> ∅ ->
                (sourceGD request ∈ getOptDomains filter) \/
                (sourceHostname request ∈ getOptDomains filter))).
  { unfold c4. destruct (hasOptDomains filter); cbn [andb];
      [|split; [discriminate | reflexivity]].
    destruct (0 <? Z.of_nat (size (getOptDomains filter))) eqn:Hs; cbn [andb].
    - apply Hsize in Hs.
      rewrite negb_false_iff, orb_true_iff, !bool_decide_eq_true. tauto.
    - split; [|reflexivity]. intros _ _ Hne. apply Hsize in Hne. congruence. }
  assert (H5 : c5 = false <->
               (hasOptNotDomains filter = true ->
                (sourceGD request ∉ getOptNotDomains filter) /\
                (sourceHostname request ∉ getOptNotDomains filter))).
  { unfold c5. destruct (hasOptNotDomains filter); cbn [andb];
      [|split; [discriminate | reflexivity]].
    destruct (0 <? Z.of_nat (size (getOptNotDomains filter))) eqn:Hs; cbn [andb].
    - rewrite orb_false_iff, !bool_decide_eq_false. tauto.
    - split; [|reflexivity]. intros _ _.
      assert (He : getOptNotDomains filter = ∅).
      { destruct (decide (getOptNotDomains filter = ∅)) as [|Hne]; [assumption|].
        apply Hsize in Hne. congruence. }
      rewrite He. split; apply not_elem_of_empty. }
  rewrite <- H1, <- H2, <- H3, <- H4, <- H5.
  destruct c1, c2, c3, c4, c5; intuition congruence.
Qed.

(** X8: [checkOptions] accepts exactly when the content type is allowed, a
    first-party request meets a filter admitting first party and a
    third-party request one admitting third party, a declared non-empty
    allow set contains the source domain or hostname, and a declared deny
    set contains neither. A declared but empty allow set restricts
    nothing. *)
Theorem checkOptions_spec (filter : NetworkFilter) (request : IRequest) :
  checkOptions filter request = true <->
  isCptAllowed filter (cpt request) = true /\
  (sourceGD request = hostGD request -> firstParty filter = true) /\
  (sourceGD request <> hostGD request -> thirdParty filter = true) /\
  (hasOptDomains filter = true -> getOptDomains filter <> ∅ ->
   (sourceGD request ∈ getOptDomains filter) \/
   (sourceHostname request ∈ getOptDomains filter)) /\
  (hasOptNotDomains filter = true ->
   (sourceGD request ∉ getOptNotDomains filter) /\
   (sourceHostname request ∉ getOptNotDomains filter)).
Proof. exact (checkOptions_iff filter request). Qed.

(** X9: when the filter declares a deny set that contains the request's
    [sourceGD] or [sourceHostname], [matchNetworkFilter] returns false and
    the pattern dispatch does not run: the request is left as it was. *)
Theorem deny_domains_reject_before_pattern (filter : NetworkFilter) (request : IRequest) :
  hasOptNotDomains filter = true ->
  (sourceGD request ∈ getOptNotDomains filter) \/
  (sourceHostname request ∈ getOptNotDomains filter) ->
  matchNetworkFilter filter request = (false, request).
Proof.
  intros Hhas Hin. unfold matchNetworkFilter.
  destruct (checkOptions filter request) eqn:Hopt; [|reflexivity].
  apply checkOptions_iff in Hopt as (_ & _ & _ & _ & Hdeny).
  destruct (Hdeny Hhas) as [Hgd Hhost]. tauto.
Qed.

(** X10: a filter that admits neither first-party nor third-party requests
    matches no request at all. *)
Theorem no_party_filter_never_matches (filter : NetworkFilter) (request : IRequest) :
  firstParty filter = false -> thirdParty filter = false ->
  matchNetworkFilter filter request = (false, request).
Proof.
  intros Hfp Htp. unfold matchNetworkFilter.
  destruct (checkOptions filter request) eqn:Hopt; [|reflexivity].
  apply checkOptions_iff in Hopt as (_ & Hf & Ht & _).
  destruct (string_dec (sourceGD request) (hostGD request)) as [Heq|Hne].
  - specialize (Hf Heq). congruence.
  - specialize (Ht Hne). congruence.
Qed.

End OptionProperties.

Lemma deny_domains_reject_before_pattern_witness :
  matchNetworkFilter (U := sampleUtils) exampleDenyFilter exampleAdsRequest
  = (false, exampleAdsRequest).
Proof.
  apply (deny_domains_reject_before_pattern (U := sampleUtils)
           exampleDenyFilter exampleAdsRequest).
  - reflexivity.
  - left. cbn [getOptNotDomains exampleDenyFilter sourceGD exampleAdsRequest].
    now apply elem_of_singleton_2.
Defined.

Lemma no_party_filter_never_matches_witness :
  matchNetworkFilter (U := sampleUtils) exampleNoPartyFilter exampleAdsRequest
  = (false, exampleAdsRequest).
Proof.
  apply (no_party_filter_never_matches (U := sampleUtils)
           exampleNoPartyFilter exampleAdsRequest); reflexivity.
Defined.

(** ** The request across calls *)

Section RequestProperties.
Context {U : Utils}.

Lemma checkPattern_nonfuzzy_request (filter : NetworkFilter) (request : IRequest) :
  isFuzzy filter = false -> snd (checkPattern filter request) = request.
Proof.
  intros Hf. unfold checkPattern. rewrite Hf.
  destruct (isHostnameAnchor filter), (isRegex filter), (isRightAnchor filter),
    (isLeftAnchor filter); reflexivity.
Qed.

(** X11: a call to [matchNetworkFilter] changes nothing of the request but
    the signature cache: an installed signature is never replaced, a filter
    that is not fuzzy leaves the request as it is, and when the cache does
    change, the value installed is [createFuzzySignature] of the request
    URL. *)
Theorem request_cache_discipline (filter : NetworkFilter) (request : IRequest) :
  let request' := snd (matchNetworkFilter filter request) in
  (url request' = url request /\ hostname request' = hostname request /\
   sourceHostname request' = sourceHostname request /\
   sourceGD request' = sourceGD request /\ hostGD request' = hostGD request /\
   cpt request' = cpt request) /\
  (forall sig, fuzzySignature request = Some sig -> request' = request) /\
  (isFuzzy filter = false -> request' = request) /\
  (request' <> request ->
   fuzzySignature request = None /\
   fuzzySignature request' = Some (createFuzzySignature (url request))).
Proof.
  cbv zeta.
  assert (Hcases : snd (matchNetworkFilter filter request) = request \/
                   (fuzzySignature request = None /\ isFuzzy filter = true /\
                    snd (matchNetworkFilter filter request)
                    = setFuzzySignature request (createFuzzySignature (url request)))).
  { destruct (isFuzzy filter) eqn:Hf.
    - destruct (matchNetworkFilter_request filter request) as [Hs|Hs]; [now left|].
      unfold ensureFuzzySignature in Hs.
      destruct (fuzzySignature request) eqn:Hsig; [now left | now right].
    - left. unfold matchNetworkFilter.
      destruct (checkOptions filter request); [|reflexivity].
      now apply checkPattern_nonfuzzy_request. }
  destruct Hcases as [Hs|(Hnone & Hf & Hs)]; rewrite Hs.
  - repeat split; try reflexivity; try tauto.
  - cbn [setFuzzySignature url hostname sourceHostname sourceGD hostGD cpt fuzzySignature].
    repeat split; try reflexivity; try congruence.
Qed.

(** X12: the result of matching a filter does not depend on which other
    filter was matched on the same request before: sharing the memoized
    signature between candidates changes no answer. *)
Theorem match_independent_of_earlier_candidate
    (earlier filter : NetworkFilter) (request : IRequest) :
  fst (matchNetworkFilter filter (snd (matchNetworkFilter earlier request)))
  = fst (matchNetworkFilter filter request).
Proof.
  destruct (matchNetworkFilter_request earlier request) as [Hs|Hs]; rewrite Hs.
  - reflexivity.
  - now rewrite matchNetworkFilter_again.
Qed.

End RequestProperties.

Lemma request_cache_discipline_witness :
  fuzzySignature (snd (matchNetworkFilter (U := sampleUtils)
                         exampleDenyFilter exampleFuzzyRequest))
  = Some (createFuzzySignature (Utils := sampleUtils) (url exampleFuzzyRequest)).
Proof.
  apply (request_cache_discipline (U := sampleUtils) exampleDenyFilter exampleFuzzyRequest).
  vm_compute. discriminate.
Defined.

(** ** The fuzzy matcher as a sublist test *)

Lemma foundAt_shift_up (sig l : list N) (x : N) (ps : list nat) :
  foundAt sig l ps -> foundAt sig (x :: l) (map S ps).
Proof.
  unfold foundAt. induction 1 as [|c p sig' ps' Hp _ IH]; simpl; constructor; auto.
Qed.

Lemma increasingFrom_shift_up (k : nat) (ps : list nat) :
  increasingFrom k ps -> increasingFrom (S k) (map S ps).
Proof.
  revert k. induction ps as [|p ps IH]; intros k; simpl; [trivial|].
  intros [Hk Hps]. split; [lia | now apply IH].
Qed.

Lemma found_shift_down (sig l : list N) (x : N) (ps : list nat) (k : nat) :
  foundAt sig (x :: l) ps -> increasingFrom (S k) ps ->
  foundAt sig l (map pred ps) /\ increasingFrom k (map pred ps).
Proof.
  unfold foundAt. intros Hfound. revert k.
  induction Hfound as [|c p sig' ps' Hp _ IH]; intros k; simpl.
  - intros _. split; [constructor | exact I].
  - intros [Hk Hps]. destruct p as [|p]; [lia|]. simpl in *.
    destruct (IH (S p) Hps) as [IH1 IH2].
    split; [constructor; assumption | split; [lia | exact IH2]].
Qed.

Lemma subsequenceOf_sublist (sig l : list N) :
  subsequenceOf sig l <-> sig `sublist_of` l.
Proof.
  split.
  - revert sig. induction l as [|x l IH]; intros sig (ps & Hfound & Hinc).
    + inversion Hfound as [|c p sig' ps' Hp _]; subst; [constructor | discriminate].
    + inversion Hfound as [|c p sig' ps' Hp Hrest]; subst; [apply sublist_nil_l|].
      destruct Hinc as [_ Hinc]. destruct p as [|p].
      * simpl in Hp. injection Hp as ->. apply sublist_skip, IH.
        destruct (found_shift_down sig' l c ps' 0 Hrest Hinc) as [H1 H2].
        now exists (map pred ps').
      * apply sublist_cons, IH.
        destruct (found_shift_down (c :: sig') l x (S p :: ps') 0) as [H1 H2].
        -- constructor; assumption.
        -- split; [lia | exact Hinc].
        -- now exists (map pred (S p :: ps')).
  - induction 1 as [|x l1 l2 _ (ps & Hfound & Hinc)|x l1 l2 _ (ps & Hfound & Hinc)].
    + exists []. split; [constructor | exact I].
    + exists (0%nat :: map S ps). split.
      * constructor; [reflexivity | now apply foundAt_shift_up].
      * split; [lia | now apply increasingFrom_shift_up].
    + exists (map S ps). split; [now apply foundAt_shift_up|].
      apply (increasingFrom_weaken 1); [lia | now apply increasingFrom_shift_up].
Qed.

Lemma fuzzyMatch_sublist_iff (signature requestSignature : list N) :
  fuzzyMatch signature requestSignature = true <->
  signature `sublist_of` requestSignature.
Proof. rewrite fuzzyMatch_spec. apply subsequenceOf_sublist. Qed.

(** X13: the comparison of [checkPatternFuzzyFilter] succeeds exactly when
    the filter signature is a sublist of the request signature (the symbols
    of the filter signature, in order, with any symbols in between). *)
Theorem fuzzyMatch_sublist (signature requestSignature : list N) :
  fuzzyMatch signature requestSignature = true <->
  signature `sublist_of` requestSignature.
Proof. exact (fuzzyMatch_sublist_iff signature requestSignature). Qed.

(** X14: fuzzy matching is reflexive and transitive on signatures, the empty
    signature matches every request, and a match survives any symbols added
    before or after the request signature. *)
Theorem fuzzyMatch_preorder (a b c before behind : list N) :
  fuzzyMatch a a = true /\
  fuzzyMatch [] b = true /\
  (fuzzyMatch a b = true -> fuzzyMatch b c = true -> fuzzyMatch a c = true) /\
  (fuzzyMatch a b = true -> fuzzyMatch a (before ++ b ++ behind) = true).
Proof.
  rewrite !fuzzyMatch_sublist_iff. split; [reflexivity|].
  split; [apply sublist_nil_l|]. split.
  - intros Hab Hbc. now transitivity b.
  - intros Hab. now apply sublist_inserts_l, sublist_inserts_r.
Qed.

Lemma fuzzyMatch_preorder_witness :
  fuzzyMatch [1; 3]%N [1; 2; 3; 4]%N = true.
Proof.
  apply (fuzzyMatch_preorder [1; 3]%N [1; 2; 3]%N [1; 2; 3; 4]%N [] []); reflexivity.
Defined.

(** ** Rendering and parsing cosmetic filters *)

Lemma substring_append_within (a b : string) (n m : nat) :
  (n + m <= String.length a)%nat ->
  String.substring n m (a +:+ b) = String.substring n m a.
Proof.
  revert n m. induction a as [|c a IH]; intros n m Hle.
  - simpl in Hle. assert (n = 0%nat) by lia. assert (m = 0%nat) by lia. subst.
    now destruct b.
  - destruct n as [|n], m as [|m]; simpl in *; try reflexivity.
    + transitivity (String c (String.substring 0 m (a +:+ b))); [reflexivity|].
      f_equal. apply IH. lia.
    + apply (IH n 0%nat). lia.
    + apply (IH n (S m)). lia.
Qed.

Lemma substring_of_take (s : string) (k n m : nat) :
  (n + m <= k)%nat -> (k <= String.length s)%nat ->
  String.substring n m (String.substring 0 k s) = String.substring n m s.
Proof.
  intros Hnm Hk.
  pose proof (substring_split k s Hk) as Hsplit.
  rewrite Hsplit at 2.
  symmetry. apply substring_append_within.
  rewrite length_substring_take; lia.
Qed.

Lemma leftmost_after_clean_prefix (pre needle post : string) :
  needle <> "" -> ~ occursIn needle pre ->
  (forall q, (q < String.length pre)%nat ->
             (String.length pre < q + String.length needle)%nat ->
             ~ occursAt needle (pre +:+ needle +:+ post) q) ->
  leftmostAt needle (pre +:+ needle +:+ post) (String.length pre).
Proof.
  intros Hne Hclean Hstraddle. split; [apply occursAt_compose|].
  intros q Hq Hocc.
  destruct (le_lt_dec (q + String.length needle) (String.length pre)) as [Hin|Hout].
  - apply Hclean. exists q. unfold occursAt in *.
    now rewrite substring_append_within in Hocc.
  - exact (Hstraddle q Hq Hout Hocc).
Qed.

(** The first ['#'] of [h#...] is right after [h] when [h] has none. *)
Lemma indexOf_sharp_rendered (h rest : string) :
  ~ occursIn "#" h ->
  JS.indexOf (h +:+ String "#"%char rest) "#" = Z.of_nat (String.length h).
Proof.
  intros Hclean. apply indexOf_of_leftmost.
  apply (leftmost_after_clean_prefix h "#" rest); [discriminate | exact Hclean|].
  intros q Hq Hout. simpl in Hout. lia.
Qed.

Lemma charIs_after_prefix (pre : string) (c d : ascii) (rest : string) :
  JS.charIs (pre +:+ String c rest) (Z.of_nat (String.length pre)) d = Ascii.eqb c d.
Proof.
  unfold JS.charIs, JS.charAt.
  destruct (Z.ltb_spec (Z.of_nat (String.length pre)) 0); [lia|].
  now rewrite Nat2Z.id, get_append_here.
Qed.

Lemma substr_after_prefix (pre body : string) :
  JS.substr (pre +:+ body) (Z.of_nat (String.length pre)) = body.
Proof.
  unfold JS.substr, JS.len. rewrite length_append.
  destruct (Z.ltb_spec (Z.of_nat (String.length pre)) 0); [lia|].
  replace (Z.to_nat (Z.min (Z.of_nat (String.length pre))
                           (Z.of_nat (String.length pre + String.length body))))
    with (String.length pre) by lia.
  replace (String.length pre + String.length body - String.length pre)%nat
    with (String.length body) by lia.
  rewrite <- (Nat.add_0_r (String.length pre)) at 1.
  rewrite substring_append_skip. apply substring_whole.
Qed.

Lemma substring_js_take (pre rest : string) :
  JS.substring (pre +:+ rest) 0 (Z.of_nat (String.length pre)) = pre.
Proof.
  unfold JS.substring, JS.clamp, JS.len. rewrite length_append.
  replace (Z.to_nat (Z.max 0 (Z.min 0 (Z.of_nat (String.length pre + String.length rest)))))
    with 0%nat by lia.
  replace (Z.to_nat (Z.max 0 (Z.min (Z.of_nat (String.length pre))
                              (Z.of_nat (String.length pre + String.length rest)))))
    with (String.length pre) by lia.
  rewrite Nat.min_l, Nat.max_r, Nat.sub_0_r by lia.
  apply substring_append_take.
Qed.

Lemma substring_js_middle (pre mid post : string) :
  JS.substring (pre +:+ mid +:+ post)
    (Z.of_nat (String.length pre))
    (Z.of_nat (String.length pre + String.length mid)) = mid.
Proof.
  unfold JS.substring, JS.clamp, JS.len. rewrite !length_append.
  replace (Z.to_nat (Z.max 0 (Z.min (Z.of_nat (String.length pre))
             (Z.of_nat (String.length pre + (String.length mid + String.length post))))))
    with (String.length pre) by lia.
  replace (Z.to_nat (Z.max 0 (Z.min (Z.of_nat (String.length pre + String.length mid))
             (Z.of_nat (String.length pre + (String.length mid + String.length post))))))
    with (String.length pre + String.length mid)%nat by lia.
  rewrite Nat.min_l, Nat.max_r by lia.
  apply slice_middle.
Qed.

(** What the parser reads back from a rendered line, before the [script:]
    branch. *)
Lemma parsedFields_rendered {U : Utils} (h body : string) (unhide : bool) :
  ~ occursIn "#" h ->
  parsedFields (h +:+ renderedSeparator unhide +:+ body)
  = (let '(m, s) := if fastStartsWith body "script:"
                    then parseScript (separatorMask unhide) body
                    else (separatorMask unhide, body) in
     (m, s, h)).
Proof.
  intros Hclean. unfold parsedFields. cbv zeta.
  assert (Hidx : JS.indexOf (h +:+ renderedSeparator unhide +:+ body) "#"
                 = Z.of_nat (String.length h)).
  { destruct unhide; apply indexOf_sharp_rendered; exact Hclean. }
  rewrite Hidx.
  assert (Hat : JS.charIs (h +:+ renderedSeparator unhide +:+ body)
                  (Z.of_nat (String.length h) + 1) "@"%char = unhide).
  { replace (Z.of_nat (String.length h) + 1)
      with (Z.of_nat (String.length (h +:+ "#"))) by (rewrite length_append; simpl; lia).
    destruct unhide; cbn [renderedSeparator].
    - change (h +:+ "#@#" +:+ body) with (h +:+ "#" +:+ String "@"%char ("#" +:+ body)).
      rewrite <- append_assoc. apply charIs_after_prefix.
    - change (h +:+ "##" +:+ body) with (h +:+ "#" +:+ String "#"%char body).
      rewrite <- append_assoc. apply charIs_after_prefix. }
  rewrite Hat.
  assert (Hsel : JS.substr (h +:+ renderedSeparator unhide +:+ body)
                   (if unhide then Z.of_nat (String.length h) + 1 + 1 + 1
                    else Z.of_nat (String.length h) + 1 + 1) = body).
  { rewrite <- append_assoc.
    replace (if unhide then Z.of_nat (String.length h) + 1 + 1 + 1
             else Z.of_nat (String.length h) + 1 + 1)
      with (Z.of_nat (String.length (h +:+ renderedSeparator unhide)))
      by (rewrite length_append; destruct unhide; simpl; lia).
    apply substr_after_prefix. }
  rewrite Hsel.
  assert (Hhost : (if Z.of_nat (String.length h) >? 0
                   then JS.substring (h +:+ renderedSeparator unhide +:+ body) 0
                          (Z.of_nat (String.length h))
                   else "") = h).
  { destruct (Z.gtb_spec (Z.of_nat (String.length h)) 0) as [Hpos|Hzero].
    - apply substring_js_take.
    - destruct h; [reflexivity | simpl in Hzero; lia]. }
  rewrite Hhost.
  replace (if unhide then setBit 0 COSMETICS_MASK.unhide else 0)
    with (separatorMask unhide) by reflexivity.
  reflexivity.
Qed.

Lemma substringFrom_after_prefix (pre rest : string) :
  JS.substringFrom (pre +:+ rest) (Z.of_nat (String.length pre)) = rest.
Proof.
  unfold JS.substringFrom.
  replace (JS.len (pre +:+ rest))
    with (Z.of_nat (String.length pre + String.length rest))
    by (unfold JS.len; now rewrite length_append).
  rewrite <- (append_empty_r rest) at 1. apply substring_js_middle.
Qed.

Lemma len_append (a b : string) : JS.len (a +:+ b) = JS.len a + JS.len b.
Proof. unfold JS.len. rewrite length_append. lia. Qed.

Lemma fastStartsWithFrom_after_prefix (pre needle rest : string) :
  fastStartsWithFrom (pre +:+ needle +:+ rest) needle (JS.len pre) = true.
Proof.
  unfold fastStartsWithFrom. rewrite !len_append.
  apply andb_true_iff. split.
  - apply Z.leb_le. unfold JS.len. lia.
  - unfold JS.len at 1. rewrite substringFrom_after_prefix.
    apply prefix_startsWith. now exists rest.
Qed.

Lemma fastStartsWithFrom_mismatch (pre needle rest : string) :
  String.prefix needle rest = false ->
  fastStartsWithFrom (pre +:+ rest) needle (JS.len pre) = false.
Proof.
  intros Hno. unfold fastStartsWithFrom.
  unfold JS.len at 3. rewrite substringFrom_after_prefix, Hno. apply andb_false_r.
Qed.

Section RenderProperties.
Context {U : Utils}.

Lemma parseScript_inject (m : Z) (sel : string) :
  parseScript m ("script:inject(" +:+ sel +:+ ")")
  = (setBit m COSMETICS_MASK.scriptInject, sel).
Proof.
  unfold parseScript. cbv zeta.
  change ("script:inject(" +:+ sel +:+ ")")
    with ("script:" +:+ "inject(" +:+ (sel +:+ ")")) at 1.
  rewrite fastStartsWithFrom_after_prefix. f_equal.
  change (JS.len "script:" + JS.len "inject(")
    with (Z.of_nat (String.length "script:inject(")).
  replace (JS.len ("script:inject(" +:+ sel +:+ ")") - 1)
    with (Z.of_nat (String.length "script:inject(" + String.length sel))
    by (rewrite !len_append; unfold JS.len; simpl; lia).
  apply substring_js_middle.
Qed.

Lemma parseScript_contains (m : Z) (sel : string) :
  String.get 0 sel <> Some "/"%char ->
  parseScript m ("script:contains(" +:+ sel +:+ ")")
  = (setBit m COSMETICS_MASK.scriptBlock, sel).
Proof.
  intros Hslash. unfold parseScript. cbv zeta.
  change ("script:contains(" +:+ sel +:+ ")")
    with ("script:" +:+ ("contains(" +:+ sel +:+ ")")) at 1.
  rewrite (fastStartsWithFrom_mismatch "script:" "inject(") by reflexivity.
  change ("script:contains(" +:+ sel +:+ ")")
    with ("script:" +:+ "contains(" +:+ (sel +:+ ")")) at 1.
  rewrite fastStartsWithFrom_after_prefix.
  change (JS.len "script:" + JS.len "contains(")
    with (Z.of_nat (String.length "script:contains(")).
  assert (Hfirst : JS.charIs ("script:contains(" +:+ sel +:+ ")")
                     (Z.of_nat (String.length "script:contains(")) "/"%char = false).
  { destruct sel as [|c sel].
    - reflexivity.
    - change ("script:contains(" +:+ String c sel +:+ ")")
        with ("script:contains(" +:+ String c (sel +:+ ")")).
      rewrite charIs_after_prefix.
      destruct (Ascii.eqb_spec c "/"%char) as [->|]; [|reflexivity].
      now contradiction Hslash. }
  rewrite Hfirst. cbn [andb]. f_equal.
  replace (JS.len ("script:contains(" +:+ sel +:+ ")") - 1)
    with (Z.of_nat (String.length "script:contains(" + String.length sel))
    by (rewrite !len_append; unfold JS.len; simpl; lia).
  apply substring_js_middle.
Qed.

End RenderProperties.

Lemma toString_shape (f : CosmeticFilter) :
  toString f
  = hostnames f +:+ renderedSeparator (isUnhide f) +:+ renderedBody f.
Proof.
  unfold toString, renderedBody, renderedSeparator, hasHostnames. cbv zeta.
  assert (Hhost : (if negb (JS.len (hostnames f) =? 0)
                   then String.append "" (hostnames f) else "") = hostnames f).
  { destruct (JS.len (hostnames f) =? 0) eqn:Hlen; [|reflexivity].
    apply len_zero in Hlen. now rewrite Hlen. }
  rewrite Hhost.
  destruct (isUnhide f), (isScriptInject f), (isScriptBlock f);
    rewrite ?append_assoc; reflexivity.
Qed.

Section RoundTrip.
Context {U : Utils}.

Lemma parsedFields_toString (f : CosmeticFilter) :
  ~ occursIn "#" (hostnames f) ->
  0 <= mask f <= 5 ->
  (isScriptInject f = false -> isScriptBlock f = false ->
   ~ startsWith (selector f) "script:") ->
  (isScriptBlock f = true -> String.get 0 (selector f) <> Some "/"%char) ->
  parsedFields (toString f) = (mask f, selector f, hostnames f).
Proof.
  intros Hclean Hmask Hplain Hblock.
  rewrite toString_shape, (parsedFields_rendered _ _ _ Hclean).
  destruct f as [i m sel h raw arr].
  unfold renderedBody, isUnhide, isScriptInject, isScriptBlock in *. cbn [mask selector hostnames] in *.
  assert (Hm : m = 0 \/ m = 1 \/ m = 2 \/ m = 3 \/ m = 4 \/ m = 5) by lia.
  destruct Hm as [ -> | [ -> | [ -> | [ -> | [ -> | -> ] ] ] ] ];
    change (getBit 0 COSMETICS_MASK.unhide) with false in *;
    change (getBit 1 COSMETICS_MASK.unhide) with true in *;
    change (getBit 2 COSMETICS_MASK.unhide) with false in *;
    change (getBit 3 COSMETICS_MASK.unhide) with true in *;
    change (getBit 4 COSMETICS_MASK.unhide) with false in *;
    change (getBit 5 COSMETICS_MASK.unhide) with true in *;
    change (getBit 0 COSMETICS_MASK.scriptInject) with false in *;
    change (getBit 1 COSMETICS_MASK.scriptInject) with false in *;
    change (getBit 2 COSMETICS_MASK.scriptInject) with true in *;
    change (getBit 3 COSMETICS_MASK.scriptInject) with true in *;
    change (getBit 4 COSMETICS_MASK.scriptInject) with false in *;
    change (getBit 5 COSMETICS_MASK.scriptInject) with false in *;
    change (getBit 0 COSMETICS_MASK.scriptBlock) with false in *;
    change (getBit 1 COSMETICS_MASK.scriptBlock) with false in *;
    change (getBit 4 COSMETICS_MASK.scriptBlock) with true in *;
    change (getBit 5 COSMETICS_MASK.scriptBlock) with true in *;
    cbv iota.
  1,2: assert (Hpre : fastStartsWith sel "script:" = false)
         by (unfold fastStartsWith;
             destruct (String.prefix "script:" sel) eqn:Hp; [|reflexivity];
             apply prefix_startsWith in Hp; now apply Hplain in Hp);
       rewrite Hpre; reflexivity.
  1,2: change (fastStartsWith ("script:inject(" +:+ sel +:+ ")") "script:") with true;
       cbv iota; rewrite parseScript_inject; reflexivity.
  1,2: change (fastStartsWith ("script:contains(" +:+ sel +:+ ")") "script:") with true;
       cbv iota; rewrite parseScript_contains by (now apply Hblock); reflexivity.
Qed.

Lemma toString_parse_fields (f : CosmeticFilter) :
  ~ occursIn "#" (hostnames f) ->
  0 <= mask f <= 5 ->
  (isUnhide f = true -> hostnames f <> "") ->
  selector f <> "" ->
  ~ endsWithText (selector f) "}" ->
  ~ occursIn "##" (selector f) ->
  (isScriptInject f = false -> isScriptBlock f = false ->
   ~ startsWith (selector f) "script:") ->
  (isScriptBlock f = true -> String.get 0 (selector f) <> Some "/"%char) ->
  parseCosmeticFilter (toString f)
  = Some (newCosmeticFilter (mask f) (selector f) (hostnames f)
            (fastHash (toString f))).
Proof.
  intros Hclean Hmask Hunhide Hne Hbrace Hsep Hplain Hblock.
  pose proof (parsedFields_toString f Hclean Hmask Hplain Hblock) as Hfields.
  rewrite parseCosmeticFilter_unfold.
  unfold parsedMask, parsedSelector, parsedHostnames. 
  assert (Hrej : rejected (toString f) = false).
  { destruct (rejected (toString f)) eqn:Hr; [|reflexivity].
    apply rejected_spec in Hr.
    unfold parsedMask, parsedSelector, parsedHostnames in Hr.
    rewrite Hfields in Hr. cbn [fst snd] in Hr.
    destruct Hr as [?|[?|[?|[Hu Hh]]]]; try contradiction.
    exfalso. now apply Hunhide. }
  rewrite Hrej, Hfields. reflexivity.
Qed.

(** X15: rendering a filter with [toString] and parsing the text gives the
    filter back (mask, selector and hostnames), provided its hostnames hold
    no ['#'], its mask is one the parser produces (0 to 5), an unhide filter
    has hostnames, its selector is one the parser accepts, a selector that is
    not a script one does not start with [script:], and a [script:contains]
    selector does not start with ['/']. *)
Theorem toString_parse_roundtrip (f : CosmeticFilter) :
  ~ occursIn "#" (hostnames f) ->
  0 <= mask f <= 5 ->
  (isUnhide f = true -> hostnames f <> "") ->
  selector f <> "" ->
  ~ endsWithText (selector f) "}" ->
  ~ occursIn "##" (selector f) ->
  (isScriptInject f = false -> isScriptBlock f = false ->
   ~ startsWith (selector f) "script:") ->
  (isScriptBlock f = true -> String.get 0 (selector f) <> Some "/"%char) ->
  parseCosmeticFilter (toString f)
  = Some (newCosmeticFilter (mask f) (selector f) (hostnames f)
            (fastHash (toString f))).
Proof. exact (toString_parse_fields f). Qed.

End RoundTrip.

Lemma toString_parse_roundtrip_witness :
  parseCosmeticFilter (U := sampleUtils) "shop.com#@#script:contains(tracker)"
  = Some (newCosmeticFilter 5 "tracker" "shop.com" 35).
Proof.
  apply (toString_parse_roundtrip (U := sampleUtils) exampleScriptFilter).
  - apply indexOf_absent_not_occursIn; [discriminate | reflexivity].
  - cbn. lia.
  - discriminate.
  - discriminate.
  - intros Hends%endsWith_spec. discriminate.
  - apply indexOf_absent_not_occursIn; [discriminate | reflexivity].
  - discriminate.
  - discriminate.
Defined.

(** ** What the parser returns *)

Section ParsedFilterProperties.
Context {U : Utils}.

Lemma parsedHostnames_eq (line : string) :
  parsedHostnames line
  = if JS.indexOf line "#" >? 0
    then JS.substring line 0 (JS.indexOf line "#") else "".
Proof.
  unfold parsedHostnames, parsedFields. cbv zeta.
  destruct (if fastStartsWith _ "script:" then _ else _) as [m s]. reflexivity.
Qed.

Lemma parseScript_mask (m : Z) (sel : string) :
  fst (parseScript m sel) = setBit m COSMETICS_MASK.scriptInject \/
  fst (parseScript m sel) = setBit m COSMETICS_MASK.scriptBlock \/
  fst (parseScript m sel) = m.
Proof.
  unfold parseScript. cbv zeta.
  destruct (fastStartsWithFrom sel "inject(" _); [now left|].
  destruct (fastStartsWithFrom sel "contains(" _); [|now right; right].
  destruct (_ && _); now right; left.
Qed.

Lemma parsedMask_cases (line : string) :
  let m0 := separatorMask (JS.charIs line (JS.indexOf line "#" + 1) "@"%char) in
  parsedMask line = m0 \/
  parsedMask line = setBit m0 COSMETICS_MASK.scriptInject \/
  parsedMask line = setBit m0 COSMETICS_MASK.scriptBlock.
Proof.
  unfold parsedMask, parsedFields, separatorMask. cbv zeta.
  set (unhide := JS.charIs line (JS.indexOf line "#" + 1) "@"%char).
  set (m0 := if unhide then setBit 0 COSMETICS_MASK.unhide else 0).
  set (sel := JS.substr line _).
  destruct (fastStartsWith sel "script:").
  - pose proof (parseScript_mask m0 sel) as Hm.
    destruct (parseScript m0 sel) as [m s]. cbn [fst] in *. tauto.
  - cbn [fst]. now left.
Qed.

Lemma parsedHostnames_prefix (line : string) :
  parsedHostnames line <> "" ->
  exists rest, line = parsedHostnames line +:+ "#" +:+ rest /\
               leftmostAt "#" line (String.length (parsedHostnames line)).
Proof.
  rewrite parsedHostnames_eq. unfold JS.indexOf.
  destruct (String.index 0 "#" line) as [n|] eqn:Hidx; [|now intros Hne].
  destruct (Z.gtb_spec (Z.of_nat n) 0) as [Hpos|]; [|now intros Hne]. intros _.
  pose proof (index_leftmost "#" line n Hidx) as Hleft.
  destruct (occursAt_decompose "#" line n ltac:(discriminate) (proj1 Hleft))
    as (pre & post & Hline & Hlen).
  assert (Hsub : JS.substring line 0 (Z.of_nat n) = pre).
  { rewrite Hline, <- Hlen. apply substring_js_take. }
  rewrite Hsub. exists post. split; [exact Hline | now rewrite Hlen].
Qed.

Lemma parsedHostnames_clean (line : string) :
  ~ occursIn "#" (parsedHostnames line).
Proof.
  intros [q Hq].
  destruct (string_dec (parsedHostnames line) "") as [He|Hne].
  - rewrite He in Hq.
    destruct (occursAt_bound "#" "" q Hq) as [Hb|Hb]; [simpl in Hb; lia | discriminate].
  - destruct (parsedHostnames_prefix line Hne) as (rest & Hline & Hleft).
    destruct (occursAt_bound "#" _ q Hq) as [Hb|Hb]; [|discriminate].
    simpl in Hb. apply (proj2 Hleft q); [lia|].
    unfold occursAt in *. rewrite Hline at 1.
    rewrite substring_append_within by (simpl; lia). exact Hq.
Qed.

Lemma parsed_filter_facts (line : string) (f : CosmeticFilter) :
  parseCosmeticFilter line = Some f ->
  ~ occursIn "#" (hostnames f) /\
  (hostnames f <> "" ->
   exists rest, line = hostnames f +:+ "#" +:+ rest) /\
  0 <= mask f <= 5 /\
  isScriptInject f && isScriptBlock f = false /\
  selector f <> "" /\
  ~ endsWithText (selector f) "}" /\
  ~ occursIn "##" (selector f) /\
  hostnamesArray f = None /\
  id f = fastHash line.
Proof.
  intros Hparse. apply parseCosmeticFilter_Some in Hparse as [Hrej ->].
  cbn [newCosmeticFilter hostnames mask selector hostnamesArray id].
  assert (Hnot : ~ (parsedSelector line = "" \/
                    endsWithText (parsedSelector line) "}" \/
                    occursIn "##" (parsedSelector line) \/
                    (getBit (parsedMask line) COSMETICS_MASK.unhide = true /\
                     parsedHostnames line = ""))).
  { intros Hyes. apply rejected_spec in Hyes. congruence. }
  assert (Hmask : parsedMask line = 0 \/ parsedMask line = 1 \/ parsedMask line = 2 \/
                  parsedMask line = 3 \/ parsedMask line = 4 \/ parsedMask line = 5).
  { pose proof (parsedMask_cases line) as Hm. cbv zeta in Hm.
    destruct (JS.charIs line (JS.indexOf line "#" + 1) "@"%char);
      cbn in Hm; tauto. }
  split; [apply parsedHostnames_clean|].
  split.
  { intros Hne. destruct (parsedHostnames_prefix line Hne) as (rest & Hline & _).
    now exists rest. }
  split; [lia|].
  split.
  { unfold isScriptInject, isScriptBlock. cbn [mask].
    destruct Hmask as [ -> | [ -> | [ -> | [ -> | [ -> | -> ] ] ] ] ]; reflexivity. }
  repeat split; try tauto.
Qed.

(** X16: a filter returned by [parseCosmeticFilter] has a hostnames text
    without ['#'] which, when not empty, is the part of the line before its
    first ['#']; a mask between 0 and 5, so never both script flags; a
    selector that is not empty, does not end with ['}'] and contains no
    [##]; no hostnames array installed; and the hash of the line as id. *)
Theorem parsed_filter_invariants (line : string) (f : CosmeticFilter) :
  parseCosmeticFilter line = Some f ->
  ~ occursIn "#" (hostnames f) /\
  (hostnames f <> "" ->
   exists rest, line = hostnames f +:+ "#" +:+ rest) /\
  0 <= mask f <= 5 /\
  isScriptInject f && isScriptBlock f = false /\
  selector f <> "" /\
  ~ endsWithText (selector f) "}" /\
  ~ occursIn "##" (selector f) /\
  hostnamesArray f = None /\
  id f = fastHash line.
Proof. exact (parsed_filter_facts line f). Qed.

Lemma parsed_unhide_hostnames (line : string) (f : CosmeticFilter) :
  parseCosmeticFilter line = Some f -> isUnhide f = true -> hostnames f <> "".
Proof.
  intros Hparse Hunhide Hempty.
  apply parseCosmeticFilter_Some in Hparse as [Hrej ->].
  unfold isUnhide in Hunhide. cbn [newCosmeticFilter mask hostnames] in *.
  assert (Hr : rejected line = true); [|congruence].
  apply rejected_spec. right. right. right. now split.
Qed.

(** X17: a parsed filter renders to a line that parses to the same mask,
    selector and hostnames, provided its selector does not start with
    [script:] when it is not a script filter and does not start with ['/']
    when it is a [script:contains] one. *)
Theorem parse_toString_stable (line : string) (f : CosmeticFilter) :
  parseCosmeticFilter line = Some f ->
  (isScriptInject f = false -> isScriptBlock f = false ->
   ~ startsWith (selector f) "script:") ->
  (isScriptBlock f = true -> String.get 0 (selector f) <> Some "/"%char) ->
  parseCosmeticFilter (toString f)
  = Some (newCosmeticFilter (mask f) (selector f) (hostnames f)
            (fastHash (toString f))).
Proof.
  intros Hparse Hplain Hblock.
  destruct (parsed_filter_facts line f Hparse)
    as (Hclean & _ & Hmask & _ & Hne & Hbrace & Hsep & _).
  apply toString_parse_fields; try assumption.
  now apply (parsed_unhide_hostnames line).
Qed.

(** X18: a line without ['#'] that starts with ['@'] is read as an unhide
    filter without hostnames and is always rejected. *)
Theorem at_line_without_separator_rejected (line : string) :
  ~ occursIn "#" line ->
  String.get 0 line = Some "@"%char ->
  parseCosmeticFilter line = None.
Proof.
  intros Hsharp Hat.
  assert (Hidx : JS.indexOf line "#" = -1)
    by (apply indexOf_absent_eq; [discriminate | exact Hsharp]).
  apply parseCosmeticFilter_rejected, rejected_spec. right. right. right.
  split.
  - pose proof (parsedMask_cases line) as Hm. cbv zeta in Hm.
    rewrite Hidx in Hm. change (-1 + 1) with 0 in Hm.
    assert (Hc : JS.charIs line 0 "@"%char = true).
    { unfold JS.charIs, JS.charAt. cbn. change (Z.to_nat 0) with 0%nat.
      now rewrite Hat. }
    rewrite Hc in Hm.
    destruct Hm as [ -> | [ -> | -> ] ]; reflexivity.
  - rewrite parsedHostnames_eq, Hidx. reflexivity.
Qed.

End ParsedFilterProperties.

Lemma parsed_filter_invariants_witness :
  exists rest, "a.com,b.org##.ad" = "a.com,b.org" +:+ "#" +:+ rest.
Proof.
  assert (Hparse : parseCosmeticFilter (U := sampleUtils) "a.com,b.org##.ad"
                   = Some (newCosmeticFilter 0 ".ad" "a.com,b.org" 16)) by reflexivity.
  destruct (parsed_filter_invariants (U := sampleUtils) "a.com,b.org##.ad" _ Hparse)
    as (_ & Hprefix & _).
  apply Hprefix. discriminate.
Defined.

Lemma parse_toString_stable_witness :
  parseCosmeticFilter (U := sampleUtils) "a.com##script:inject(x.js)"
  = Some (newCosmeticFilter 2 "x.js" "a.com" 26).
Proof.
  assert (Hparse : parseCosmeticFilter (U := sampleUtils) "a.com#?script:inject(x.js)"
                   = Some (newCosmeticFilter 2 "x.js" "a.com" 26)) by reflexivity.
  apply (parse_toString_stable (U := sampleUtils) "a.com#?script:inject(x.js)" _ Hparse);
    discriminate.
Defined.

Lemma at_line_without_separator_rejected_witness :
  parseCosmeticFilter (U := sampleUtils) "@.banner" = None.
Proof.
  apply (at_line_without_separator_rejected (U := sampleUtils) "@.banner").
  - apply indexOf_absent_not_occursIn; [discriminate | reflexivity].
  - reflexivity.
Defined.

(** ** The characters of the separator *)

Section SeparatorProperties.
Context {U : Utils}.

Lemma parsedFields_hide_any (h body : string) (c : ascii) :
  ~ occursIn "#" h -> c <> "@"%char ->
  parsedFields (h +:+ String "#"%char (String c body))
  = parsedFields (h +:+ "##" +:+ body).
Proof.
  intros Hclean Hc.
  change (h +:+ "##" +:+ body) with (h +:+ renderedSeparator false +:+ body).
  rewrite (parsedFields_rendered h body false Hclean).
  unfold parsedFields. cbv zeta.
  rewrite (indexOf_sharp_rendered h (String c body) Hclean).
  assert (Hat : JS.charIs (h +:+ String "#"%char (String c body))
                  (Z.of_nat (String.length h) + 1) "@"%char = false).
  { replace (Z.of_nat (String.length h) + 1)
      with (Z.of_nat (String.length (h +:+ "#"))) by (rewrite length_append; simpl; lia).
    change (h +:+ String "#"%char (String c body)) with (h +:+ "#" +:+ String c body).
    rewrite <- append_assoc, charIs_after_prefix.
    now apply Ascii.eqb_neq. }
  rewrite Hat.
  assert (Hsel : JS.substr (h +:+ String "#"%char (String c body))
                   (Z.of_nat (String.length h) + 1 + 1) = body).
  { change (h +:+ String "#"%char (String c body))
      with (h +:+ String "#"%char (String c "") +:+ body).
    rewrite <- append_assoc.
    replace (Z.of_nat (String.length h) + 1 + 1)
      with (Z.of_nat (String.length (h +:+ String "#"%char (String c ""))))
      by (rewrite length_append; simpl; lia).
    apply substr_after_prefix. }
  rewrite Hsel.
  assert (Hhost : (if Z.of_nat (String.length h) >? 0
                   then JS.substring (h +:+ String "#"%char (String c body)) 0
                          (Z.of_nat (String.length h))
                   else "") = h).
  { destruct (Z.gtb_spec (Z.of_nat (String.length h)) 0) as [Hpos|Hzero].
    - apply substring_js_take.
    - destruct h; [reflexivity | simpl in Hzero; lia]. }
  rewrite Hhost. reflexivity.
Qed.

Lemma parsedFields_unhide_any (h body : string) (c : ascii) :
  ~ occursIn "#" h ->
  parsedFields (h +:+ String "#"%char (String "@"%char (String c body)))
  = parsedFields (h +:+ "#@#" +:+ body).
Proof.
  intros Hclean.
  change (h +:+ "#@#" +:+ body) with (h +:+ renderedSeparator true +:+ body).
  rewrite (parsedFields_rendered h body true Hclean).
  unfold parsedFields. cbv zeta.
  rewrite (indexOf_sharp_rendered h (String "@"%char (String c body)) Hclean).
  assert (Hat : JS.charIs (h +:+ String "#"%char (String "@"%char (String c body)))
                  (Z.of_nat (String.length h) + 1) "@"%char = true).
  { replace (Z.of_nat (String.length h) + 1)
      with (Z.of_nat (String.length (h +:+ "#"))) by (rewrite length_append; simpl; lia).
    change (h +:+ String "#"%char (String "@"%char (String c body)))
      with (h +:+ "#" +:+ String "@"%char (String c body)).
    rewrite <- append_assoc. apply charIs_after_prefix. }
  rewrite Hat.
  assert (Hsel : JS.substr (h +:+ String "#"%char (String "@"%char (String c body)))
                   (Z.of_nat (String.length h) + 1 + 1 + 1) = body).
  { change (h +:+ String "#"%char (String "@"%char (String c body)))
      with (h +:+ String "#"%char (String "@"%char (String c "")) +:+ body).
    rewrite <- append_assoc.
    replace (Z.of_nat (String.length h) + 1 + 1 + 1)
      with (Z.of_nat (String.length (h +:+ String "#"%char (String "@"%char (String c "")))))
      by (rewrite length_append; simpl; lia).
    apply substr_after_prefix. }
  rewrite Hsel.
  assert (Hhost : (if Z.of_nat (String.length h) >? 0
                   then JS.substring
                          (h +:+ String "#"%char (String "@"%char (String c body))) 0
                          (Z.of_nat (String.length h))
                   else "") = h).
  { destruct (Z.gtb_spec (Z.of_nat (String.length h)) 0) as [Hpos|Hzero].
    - apply substring_js_take.
    - destruct h; [reflexivity | simpl in Hzero; lia]. }
  rewrite Hhost. reflexivity.
Qed.

Lemma parse_fields_congruence (line1 line2 : string) :
  parsedFields line1 = parsedFields line2 ->
  option_map fieldsOf (parseCosmeticFilter line1)
  = option_map fieldsOf (parseCosmeticFilter line2).
Proof.
  intros Heq. rewrite !parseCosmeticFilter_unfold.
  unfold rejected, parsedMask, parsedSelector, parsedHostnames. rewrite Heq.
  destruct (_ || _ || _ || _); reflexivity.
Qed.

(** X19: the parser checks only the first ['#'] and whether an ['@'] follows
    it: whatever character stands where the second ['#'] of [##] or the
    final ['#'] of [#@#] is expected is skipped, and the line parses to the
    same mask, selector and hostnames as the well-formed one. *)
Theorem separator_tail_not_checked (h body : string) (c : ascii) :
  ~ occursIn "#" h ->
  (c <> "@"%char ->
   option_map fieldsOf (parseCosmeticFilter (h +:+ String "#"%char (String c body)))
   = option_map fieldsOf (parseCosmeticFilter (h +:+ "##" +:+ body))) /\
  option_map fieldsOf
    (parseCosmeticFilter (h +:+ String "#"%char (String "@"%char (String c body))))
  = option_map fieldsOf (parseCosmeticFilter (h +:+ "#@#" +:+ body)).
Proof.
  intros Hclean. split.
  - intros Hc. now apply parse_fields_congruence, parsedFields_hide_any.
  - now apply parse_fields_congruence, parsedFields_unhide_any.
Qed.

End SeparatorProperties.

Lemma separator_tail_not_checked_witness :
  option_map fieldsOf (parseCosmeticFilter (U := sampleUtils) "a.com#?.ad")
  = Some (0, ".ad", "a.com").
Proof.
  destruct (separator_tail_not_checked (U := sampleUtils) "a.com" ".ad" "?"%char)
    as [Hhide _].
  - apply indexOf_absent_not_occursIn; [discriminate | reflexivity].
  - etransitivity; [exact (Hhide ltac:(discriminate)) | reflexivity].
Defined.

(** ** The hostnames array *)

Lemma split_join (sep : ascii) (s : string) :
  String.concat (String sep "") (split sep s) = s.
Proof.
  induction s as [|c s IH]; [reflexivity|]. simpl split.
  destruct (Ascii.eqb_spec c sep) as [->|Hne].
  - pose proof (split_nonempty sep s) as Hnil.
    destruct (split sep s) as [|w ws] eqn:Hs; [contradiction|].
    cbn [String.concat]. cbn [String.concat] in IH. rewrite IH. reflexivity.
  - pose proof (split_nonempty sep s) as Hnil.
    destruct (split sep s) as [|w ws] eqn:Hs; [contradiction|].
    destruct ws as [|w' ws]; cbn [String.concat] in *.
    + now rewrite IH.
    + rewrite <- IH. reflexivity.
Qed.

Lemma split_charFree (sep : ascii) (s : string) :
  Forall (fun w => charFree sep w = true) (split sep s).
Proof.
  induction s as [|c s IH]; simpl; [repeat constructor|].
  destruct (Ascii.eqb c sep) eqn:Hc.
  - constructor; [reflexivity | exact IH].
  - destruct (split sep s) as [|w ws]; [repeat constructor; simpl; now rewrite Hc|].
    inversion IH as [|w0 ws0 Hw Hws]; subst.
    constructor; [simpl; now rewrite Hc, Hw | exact Hws].
Qed.

Lemma insertByLength_perm (h : string) (l : list string) :
  insertByLength h l ≡ₚ h :: l.
Proof.
  induction l as [|h' l IH]; simpl; [reflexivity|].
  destruct (JS.len h' >? JS.len h); [|reflexivity].
  rewrite IH. apply perm_swap.
Qed.

Lemma sortByLength_perm (l : list string) : sortByLength l ≡ₚ l.
Proof.
  induction l as [|h l IH]; simpl; [reflexivity|].
  now rewrite insertByLength_perm, IH.
Qed.

Lemma insertByLength_sorted (h : string) (l : list string) :
  longestFirst l -> longestFirst (insertByLength h l).
Proof.
  induction l as [|h' l IH]; intros Hl; simpl; [split; [constructor | exact I]|].
  destruct Hl as [Hall Hl].
  destruct (Z.gtb_spec (JS.len h') (JS.len h)) as [Hgt|Hle]; simpl.
  - split; [|now apply IH].
    rewrite insertByLength_perm. constructor; [|exact Hall].
    unfold notShorter, JS.len in *. lia.
  - split; [|split; assumption].
    constructor; [unfold notShorter, JS.len in *; lia|].
    eapply Forall_impl; [exact Hall|].
    intros w Hw. unfold notShorter, JS.len in *. lia.
Qed.

Lemma sortByLength_sorted (l : list string) : longestFirst (sortByLength l).
Proof.
  induction l as [|h l IH]; simpl; [exact I | now apply insertByLength_sorted].
Qed.

(** X20: on a filter with hostnames whose array is not installed yet,
    [getHostnames] returns the comma-separated pieces of the hostnames text
    (comma-free strings that joined by commas give the text back), reordered
    so that no hostname comes before a longer one; it installs the array, and
    a second call returns the same array and leaves the filter as it is. *)
Theorem getHostnames_pieces_longest_first (f : CosmeticFilter) :
  hostnamesArray f = None -> hostnames f <> "" ->
  let arr := fst (getHostnames f) in
  let f' := snd (getHostnames f) in
  (exists pieces,
     String.concat "," pieces = hostnames f /\
     Forall (fun w => charFree ","%char w = true) pieces /\
     arr ≡ₚ pieces) /\
  longestFirst arr /\
  hostnamesArray f' = Some arr /\
  getHostnames f' = (arr, f').
Proof.
  intros Hnone Hne. cbv zeta.
  assert (Hhas : hasHostnames f = true).
  { unfold hasHostnames. destruct (JS.len (hostnames f) =? 0) eqn:Hlen; [|reflexivity].
    apply len_zero in Hlen. contradiction. }
  assert (Hget : getHostnames f
                 = (sortByLength (split ","%char (hostnames f)),
                    {| id := id f; mask := mask f; selector := selector f;
                       hostnames := hostnames f; rawLine := rawLine f;
                       hostnamesArray :=
                         Some (sortByLength (split ","%char (hostnames f))) |})).
  { unfold getHostnames. now rewrite Hnone, Hhas. }
  rewrite Hget. cbn [fst snd hostnamesArray].
  split.
  { exists (split ","%char (hostnames f)). split; [apply split_join|].
    split; [apply split_charFree | apply sortByLength_perm]. }
  split; [apply sortByLength_sorted|].
  split; reflexivity.
Qed.

Lemma getHostnames_pieces_longest_first_witness :
  fst (getHostnames exampleScopedFilter) = ["shop.example.org"; "bb.net"; "a.com"] /\
  longestFirst (fst (getHostnames exampleScopedFilter)).
Proof.
  split; [reflexivity|].
  apply (getHostnames_pieces_longest_first exampleScopedFilter);
    [reflexivity | discriminate].
Defined.

(** ** Tokens of simple and of bracketed selectors *)



Lemma get_append_skip (a b : string) (n : nat) :
  String.get (String.length a + n) (a +:+ b) = String.get n b.
Proof. induction a as [|c a IH]; simpl; [reflexivity | exact IH]. Qed.

Lemma combinatorFree_get (s : string) (j : nat) :
  combinatorFree s = true ->
  isCombinatorCode (option_map nat_of_ascii (String.get j s)) = false.
Proof.
  revert j. induction s as [|c s IH]; intros j Hfree; [now destruct j|].
  simpl in Hfree. apply andb_true_iff in Hfree as [Hc Hs].
  destruct j as [|j]; simpl.
  - now apply negb_true_iff in Hc.
  - now apply IH.
Qed.

Lemma combinatorFree_append (a b : string) :
  combinatorFree a = true -> combinatorFree b = true ->
  combinatorFree (a +:+ b) = true.
Proof.
  induction a as [|c a IH]; intros Ha Hb; [exact Hb|].
  simpl in Ha. apply andb_true_iff in Ha as [Hc Ha].
  change (combinatorFree (String c (a +:+ b)) = true). simpl.
  rewrite Hc. now apply IH.
Qed.

Lemma bracketFree_append (a b : string) :
  bracketFree a = true -> bracketFree b = true -> bracketFree (a +:+ b) = true.
Proof.
  induction a as [|c a IH]; intros Ha Hb; [exact Hb|].
  simpl in Ha. apply andb_true_iff in Ha as [Hc Ha].
  change (bracketFree (String c (a +:+ b)) = true). simpl.
  rewrite Hc. now apply IH.
Qed.

Lemma lastCombinatorIndex_at (pre tail : string) (c : ascii) :
  isCombinatorCode (Some (nat_of_ascii c)) = true ->
  combinatorFree tail = true ->
  lastCombinatorIndex (pre +:+ String c tail) = String.length pre.
Proof.
  intros Hc Hfree. unfold lastCombinatorIndex.
  set (sel := pre +:+ String c tail).
  assert (Hat : combinatorAt sel (String.length pre) = true).
  { unfold combinatorAt, JS.charCodeAt, sel. now rewrite get_append_here. }
  destruct (findSepIndex_last sel (String.length sel) (String.length pre)
              (combinatorAt_in_range _ _ Hat) Hat) as (Hsep & Hge & _).
  destruct (Nat.eq_dec (findSepIndex sel (String.length sel)) (String.length pre))
    as [Heq|Hneq]; [exact Heq | exfalso].
  set (k := findSepIndex sel (String.length sel)) in *.
  unfold combinatorAt, JS.charCodeAt, sel in Hsep.
  change (pre +:+ String c tail) with (pre +:+ String c "" +:+ tail) in Hsep.
  rewrite <- append_assoc in Hsep.
  replace k with (String.length (pre +:+ String c "") + (k - String.length pre - 1))%nat
    in Hsep by (rewrite length_append; simpl; lia).
  rewrite get_append_skip, combinatorFree_get in Hsep by exact Hfree.
  discriminate.
Qed.

Section SimpleTokens.
Context {U : Utils}.


(** X22: when the last combinator character of the selector is followed by
    text with a closing bracket but no opening one (the combinator stands
    inside the last bracketed span, as in [a[href~=x].ad]), the filter gets
    no token at all. *)
Theorem bracketed_last_combinator_no_tokens
    (f : CosmeticFilter) (pre inner rest : string) (c : ascii) :
  isScriptInject f = false -> isScriptBlock f = false ->
  selector f = pre +:+ String c inner +:+ "]" +:+ rest ->
  isCombinatorCode (Some (nat_of_ascii c)) = true ->
  combinatorFree inner = true -> bracketFree inner = true ->
  combinatorFree rest = true -> bracketFree rest = true ->
  getTokensSelector f = [].
Proof.
  intros Hinject Hblock Hsel Hc Hci Hbi Hcr Hbr.
  unfold getTokensSelector. rewrite Hinject, Hblock. cbn [orb].
  rewrite Hsel.
  change (pre +:+ String c inner +:+ "]" +:+ rest)
    with (pre +:+ String c (inner +:+ "]" +:+ rest)).
  rewrite lastCombinatorIndex_at;
    [|exact Hc | apply combinatorFree_append; [exact Hci|];
                 change ("]" +:+ rest) with (String "]"%char rest); simpl; now rewrite Hcr].
  unfold tokensFrom.
  set (tail := String c (inner +:+ "]" +:+ rest)).
  replace (String.length (pre +:+ tail) - String.length pre)%nat
    with (String.length tail) by (rewrite length_append; lia).
  rewrite (scanLoop_scanSuffix (pre +:+ tail) tail pre _ eq_refl).
  unfold tail.
  change (String c (inner +:+ "]" +:+ rest))
    with (String c inner +:+ String "]"%char rest).
  rewrite scanSuffix_append.
  assert (Hhead : bracketFree (String c inner) = true).
  { simpl. rewrite Hbi, andb_true_r. apply negb_true_iff.
    unfold isBracket. rewrite <- code_open_bracket, <- code_close_bracket.
    unfold isCombinatorCode in Hc.
    destruct (Nat.eqb_spec (nat_of_ascii c) 91) as [He|_];
      [rewrite He in Hc; discriminate|].
    destruct (Nat.eqb_spec (nat_of_ascii c) 93) as [He|_];
      [rewrite He in Hc; discriminate | reflexivity]. }
  rewrite (scanSuffix_plain _ _ _ _ Hhead).
  cbn [scanSuffix]. change (nat_of_ascii "]") with 93%nat.
  rewrite scanCode_close, (scanSuffix_plain _ _ _ _ Hbr).
  reflexivity.
Qed.

End SimpleTokens.


Lemma bracketed_last_combinator_no_tokens_witness :
  getTokensSelector (U := sampleUtils) exampleTildeFilter = [].
Proof.
  apply (bracketed_last_combinator_no_tokens (U := sampleUtils)
           exampleTildeFilter "a[href" "=x" ".ad" "~"%char); reflexivity.
Defined.

(** ** Fuzzy filters through the whole match *)

Section FuzzyDispatch.
Context {U : Utils}.

(** X23: a fuzzy filter that is neither regex nor right-anchored, and is
    hostname-anchored or not left-anchored, matches exactly when the options
    accept the request, the anchor accepts the hostname if the filter is
    hostname-anchored, and the filter signature is a sublist of the request
    signature (the cached one, or the one derived from the URL). *)
Theorem fuzzy_filter_match (filter : NetworkFilter) (request : IRequest) :
  isRegex filter = false -> isRightAnchor filter = false -> isFuzzy filter = true ->
  isHostnameAnchor filter = true \/ isLeftAnchor filter = false ->
  (fst (matchNetworkFilter filter request) = true <->
   checkOptions filter request = true /\
   (isHostnameAnchor filter = true ->
    isAnchoredByHostname (getHostname filter) (hostname request) = true) /\
   getFuzzySignature filter `sublist_of` requestSignatureOf request).
Proof.
  intros Hr Hra Hf Hshape.
  unfold matchNetworkFilter.
  destruct (checkOptions filter request);
    [|cbn [fst]; split; [discriminate | intros [Hfalse _]; discriminate]].
  assert (Hfuzzy : fst (checkPatternFuzzyFilter filter request) = true <->
                   getFuzzySignature filter `sublist_of` requestSignatureOf request).
  { unfold checkPatternFuzzyFilter. cbn [fst].
    fold (requestSignatureOf request). apply fuzzyMatch_sublist_iff. }
  unfold checkPattern, checkPatternHostnameAnchorFuzzyFilter.
  rewrite Hr, Hra, Hf.
  destruct (isHostnameAnchor filter).
  - destruct (isAnchoredByHostname (getHostname filter) (hostname request)).
    + rewrite Hfuzzy. tauto.
    + cbn [fst]. split; [discriminate|]. intros (_ & Ha & _).
      specialize (Ha eq_refl). discriminate.
  - destruct Hshape as [Hh|Hl]; [discriminate|]. rewrite Hl. cbn [andb].
    rewrite Hfuzzy. intuition discriminate.
Qed.

End FuzzyDispatch.

Lemma fuzzy_filter_match_witness :
  fst (matchNetworkFilter (U := sampleUtils) exampleDenyFilter exampleFuzzyRequest) = true.
Proof.
  apply (fuzzy_filter_match (U := sampleUtils) exampleDenyFilter exampleFuzzyRequest);
    try reflexivity.
  - now right.
  - split; [reflexivity|]. split; [discriminate|].
    apply fuzzyMatch_sublist_iff. reflexivity.
Defined.
